(** * Auditorium control panel: dashboard and admin scripts

    A shallow embedding of the browser scripts of the auditorium control
    application (the dashboard script and [static/js/admin.js]) and the
    properties of their request/response handling.

    The scripts are event handlers over a page (DOM fields, a few globals)
    that talk to the server through [fetch].  An [async] function is split
    where it awaits its response: the part that runs when the handler is
    called issues the request and leaves a continuation in flight; the
    continuation runs when the response settles.  Exceptions, [try],
    [catch] and [finally] are those of a state-and-exception monad. *)

From Stdlib Require Import ZArith String Ascii List DecimalString Lia.
From stdpp Require Import gmap strings list.

Set Warnings "-register-all".
Local Open Scope Z_scope.
Local Open Scope string_scope.

(** ** JavaScript values, as far as the scripts use them *)

Module JS.

(** A parsed JSON body, plus [undefined] and [NaN], which the scripts can
    produce themselves.  Numbers are the integral ones; an object keeps one
    binding per key, found by [assoc]. *)
Inductive value : Type :=
| VUndef
| VNull
| VNaN
| VBool (b : bool)
| VNum (n : Z)
| VStr (s : string)
| VArr (l : list value)
| VObj (fields : list (string * value)).

Inductive exn : Type :=
| TypeError
| SyntaxError
| FetchFailed
| Error (msg : string).

Definition dq : string := String (ascii_of_nat 34) EmptyString.
Definition nl : string := String (ascii_of_nat 10) EmptyString.

Fixpoint sp (n : nat) : string :=
  match n with
  | O => EmptyString
  | S n' => String (ascii_of_nat 32) (sp n')
  end.

Definition num_to_string (n : Z) : string :=
  NilZero.string_of_int (Z.to_int n).

(** [ToString], the conversion a template literal applies. *)
Fixpoint to_string (v : value) : string :=
  match v with
  | VUndef => "undefined"
  | VNull => "null"
  | VNaN => "NaN"
  | VBool true => "true"
  | VBool false => "false"
  | VNum n => num_to_string n
  | VStr s => s
  | VArr l =>
      let elem (x : value) : string :=
        match x with
        | VUndef | VNull => EmptyString
        | _ => to_string x
        end in
      (fix join (xs : list value) : string :=
         match xs with
         | [] => EmptyString
         | [x] => elem x
         | x :: rest => elem x +:+ "," +:+ join rest
         end) l
  | VObj _ => "[object Object]"
  end.

(** Assignment to [textContent], a nullable string attribute: [null] and
    [undefined] give the empty text. *)
Definition text_content (v : value) : string :=
  match v with
  | VUndef | VNull => EmptyString
  | _ => to_string v
  end.

(** [ToBoolean]. *)
Definition truthy (v : value) : bool :=
  match v with
  | VUndef | VNull | VNaN => false
  | VBool b => b
  | VNum n => negb (n =? 0)%Z
  | VStr s => negb (String.eqb s EmptyString)
  | VArr _ | VObj _ => true
  end.

(** [a || b] *)
Definition js_or (a b : value) : value := if truthy a then a else b.

(** [v === 's'] for a string literal. *)
Definition is_str (v : value) (s : string) : bool :=
  match v with
  | VStr s' => String.eqb s' s
  | _ => false
  end.

Fixpoint assoc (k : string) (fields : list (string * value)) : value :=
  match fields with
  | [] => VUndef
  | (k', v) :: rest => if String.eqb k' k then v else assoc k rest
  end.

(** [v.k] for an identifier [k]: [None] is the TypeError raised on [null]
    and [undefined]. *)
Definition prop (v : value) (k : string) : option value :=
  match v with
  | VUndef | VNull => None
  | VObj fields => Some (assoc k fields)
  | VArr l => Some (if String.eqb k "length" then VNum (Z.of_nat (length l)) else VUndef)
  | VStr s => Some (if String.eqb k "length" then VNum (Z.of_nat (String.length s)) else VUndef)
  | _ => Some VUndef
  end.

(** What a [fetch] settles to: the promise rejects, or a response arrives
    with its HTTP status and a body that [res.json()] parses or rejects. *)
Inductive fetch_result : Type :=
| NetworkFailure
| Response (status : Z) (body : option value).

(** [res.ok] *)
Definition res_ok (status : Z) : bool :=
  ((200 <=? status) && (status <=? 299))%Z.

Record request : Type := mkRequest {
  url : string;
  method : string;
  body : option value
}.

(** *** State and exceptions *)

Inductive result (A : Type) : Type :=
| Ok (a : A)
| Thrown (e : exn).
Arguments Ok {A} a.
Arguments Thrown {A} e.

Definition M (S A : Type) : Type := S -> result A * S.

Section Monad.
Context {S : Type}.

Definition ret {A} (a : A) : M S A := fun s => (Ok a, s).

Definition bind {A B} (m : M S A) (k : A -> M S B) : M S B :=
  fun s =>
    match m s with
    | (Ok a, s') => k a s'
    | (Thrown e, s') => (Thrown e, s')
    end.

Definition throw {A} (e : exn) : M S A := fun s => (Thrown e, s).

Definition modify (f : S -> S) : M S unit := fun s => (Ok tt, f s).

Definition gets {A} (f : S -> A) : M S A := fun s => (Ok (f s), s).

(** [try { m } catch (e) { h e }] *)
Definition try_catch {A} (m : M S A) (h : exn -> M S A) : M S A :=
  fun s =>
    match m s with
    | (Ok a, s') => (Ok a, s')
    | (Thrown e, s') => h e s'
    end.

(** [try { m } finally { f }]: [f] runs on both exits; the completion of
    [m] stands unless [f] throws itself. *)
Definition try_finally {A} (m : M S A) (f : M S unit) : M S A :=
  fun s =>
    match m s with
    | (r, s') =>
        match f s' with
        | (Ok _, s'') => (r, s'')
        | (Thrown e, s'') => (Thrown e, s'')
        end
    end.

Definition get_prop (v : value) (k : string) : M S value :=
  match prop v k with
  | Some x => ret x
  | None => throw TypeError
  end.

(** [v.forEach(f)]: only an array has the method. *)
Fixpoint for_each_list (f : value -> M S unit) (l : list value) : M S unit :=
  match l with
  | [] => ret tt
  | x :: rest => bind (f x) (fun _ => for_each_list f rest)
  end.

Definition for_each (v : value) (f : value -> M S unit) : M S unit :=
  match v with
  | VArr l => for_each_list f l
  | _ => throw TypeError
  end.

(** [await res.json()], once the fetch has settled to [r]. *)
Definition json_of (b : option value) : M S value :=
  match b with
  | Some d => ret d
  | None => throw SyntaxError
  end.

Definition exec {A} (m : M S A) (s : S) : S := snd (m s).
Definition outcome {A} (m : M S A) (s : S) : result A := fst (m s).

(** Every run of [m] relates the state it starts in to the state it
    ends in, whichever way it completes. *)
Definition preserves (R : S -> S -> Prop) {A} (m : M S A) : Prop :=
  forall s, R s (exec m s).

(** The part [proj] of the state is the same before and after. *)
Definition same {X} (proj : S -> X) : S -> S -> Prop :=
  fun s s' => proj s' = proj s.

(** If [I] holds before, it holds after. *)
Definition keeps (I : S -> Prop) : S -> S -> Prop :=
  fun s s' => I s -> I s'.
End Monad.

Declare Scope js_scope.
Delimit Scope js_scope with js.
Notation "x <- m ;; k" := (bind m (fun x => k))
  (at level 100, m at next level, right associativity) : js_scope.
Notation "m ;;; k" := (bind m (fun _ => k))
  (at level 100, right associativity) : js_scope.

End JS.

(** ** The dashboard script *)

Module Dashboard.
Import JS.
Local Open Scope js_scope.

(** A command button: the two properties the script writes. *)
Record button : Type := mkButton {
  disabled : bool;
  innerHTML : string
}.

(** A notification element created by [mostrarNotificacion]. *)
Record notif : Type := mkNotif {
  el : nat;
  className : string;
  textContent : string;
  animation : string
}.

(** The two [setTimeout] callbacks of a notification. *)
Inductive timer : Type :=
| SlideOut (n : nat)
| Remove (n : nat).

(** The rest of an [async] function, waiting for its fetch to settle. *)
Inductive cont : Type :=
| KEstado
| KComando (btn : nat) (textoOriginal : string)
| KApagado (btn : nat) (textoOriginal : string)
| KLogs.

(** The page: the elements the script reads and writes, its global
    [btnActual], the timers and fetches it has pending, and what it has
    sent and logged. *)
Record page : Type := mkPage {
  modo_val : string;
  cpu_val : string;
  latencia_val : string;
  kpi_estado : list string;
  notificaciones : list notif;
  next_el : nat;
  timers : list timer;
  log_box : string;
  log_scrollTop : Z;
  modal_confirm : string;
  btnActual : option nat;
  buttons : gmap nat button;
  inflight : list cont;
  sent : list request;
  console : list (string * exn)
}.

Definition set_modo_val (x : string) (p : page) : page :=
  mkPage x (cpu_val p) (latencia_val p) (kpi_estado p) (notificaciones p)
    (next_el p) (timers p) (log_box p) (log_scrollTop p) (modal_confirm p)
    (btnActual p) (buttons p) (inflight p) (sent p) (console p).
Definition set_cpu_val (x : string) (p : page) : page :=
  mkPage (modo_val p) x (latencia_val p) (kpi_estado p) (notificaciones p)
    (next_el p) (timers p) (log_box p) (log_scrollTop p) (modal_confirm p)
    (btnActual p) (buttons p) (inflight p) (sent p) (console p).
Definition set_latencia_val (x : string) (p : page) : page :=
  mkPage (modo_val p) (cpu_val p) x (kpi_estado p) (notificaciones p)
    (next_el p) (timers p) (log_box p) (log_scrollTop p) (modal_confirm p)
    (btnActual p) (buttons p) (inflight p) (sent p) (console p).
Definition set_kpi_estado (x : list string) (p : page) : page :=
  mkPage (modo_val p) (cpu_val p) (latencia_val p) x (notificaciones p)
    (next_el p) (timers p) (log_box p) (log_scrollTop p) (modal_confirm p)
    (btnActual p) (buttons p) (inflight p) (sent p) (console p).
Definition set_notificaciones (x : list notif) (p : page) : page :=
  mkPage (modo_val p) (cpu_val p) (latencia_val p) (kpi_estado p) x
    (next_el p) (timers p) (log_box p) (log_scrollTop p) (modal_confirm p)
    (btnActual p) (buttons p) (inflight p) (sent p) (console p).
Definition set_next_el (x : nat) (p : page) : page :=
  mkPage (modo_val p) (cpu_val p) (latencia_val p) (kpi_estado p) (notificaciones p)
    x (timers p) (log_box p) (log_scrollTop p) (modal_confirm p)
    (btnActual p) (buttons p) (inflight p) (sent p) (console p).
Definition set_timers (x : list timer) (p : page) : page :=
  mkPage (modo_val p) (cpu_val p) (latencia_val p) (kpi_estado p) (notificaciones p)
    (next_el p) x (log_box p) (log_scrollTop p) (modal_confirm p)
    (btnActual p) (buttons p) (inflight p) (sent p) (console p).
Definition set_log_box (x : string) (p : page) : page :=
  mkPage (modo_val p) (cpu_val p) (latencia_val p) (kpi_estado p) (notificaciones p)
    (next_el p) (timers p) x (log_scrollTop p) (modal_confirm p)
    (btnActual p) (buttons p) (inflight p) (sent p) (console p).
Definition set_log_scrollTop (x : Z) (p : page) : page :=
  mkPage (modo_val p) (cpu_val p) (latencia_val p) (kpi_estado p) (notificaciones p)
    (next_el p) (timers p) (log_box p) x (modal_confirm p)
    (btnActual p) (buttons p) (inflight p) (sent p) (console p).
Definition set_modal_confirm (x : string) (p : page) : page :=
  mkPage (modo_val p) (cpu_val p) (latencia_val p) (kpi_estado p) (notificaciones p)
    (next_el p) (timers p) (log_box p) (log_scrollTop p) x
    (btnActual p) (buttons p) (inflight p) (sent p) (console p).
Definition set_btnActual (x : option nat) (p : page) : page :=
  mkPage (modo_val p) (cpu_val p) (latencia_val p) (kpi_estado p) (notificaciones p)
    (next_el p) (timers p) (log_box p) (log_scrollTop p) (modal_confirm p)
    x (buttons p) (inflight p) (sent p) (console p).
Definition set_buttons (x : gmap nat button) (p : page) : page :=
  mkPage (modo_val p) (cpu_val p) (latencia_val p) (kpi_estado p) (notificaciones p)
    (next_el p) (timers p) (log_box p) (log_scrollTop p) (modal_confirm p)
    (btnActual p) x (inflight p) (sent p) (console p).
Definition set_inflight (x : list cont) (p : page) : page :=
  mkPage (modo_val p) (cpu_val p) (latencia_val p) (kpi_estado p) (notificaciones p)
    (next_el p) (timers p) (log_box p) (log_scrollTop p) (modal_confirm p)
    (btnActual p) (buttons p) x (sent p) (console p).
Definition set_sent (x : list request) (p : page) : page :=
  mkPage (modo_val p) (cpu_val p) (latencia_val p) (kpi_estado p) (notificaciones p)
    (next_el p) (timers p) (log_box p) (log_scrollTop p) (modal_confirm p)
    (btnActual p) (buttons p) (inflight p) x (console p).
Definition set_console (x : list (string * exn)) (p : page) : page :=
  mkPage (modo_val p) (cpu_val p) (latencia_val p) (kpi_estado p) (notificaciones p)
    (next_el p) (timers p) (log_box p) (log_scrollTop p) (modal_confirm p)
    (btnActual p) (buttons p) (inflight p) (sent p) x.

(** What the state panel shows: mode, CPU, latency and the indicator's
    classes. *)
Definition displayed (p : page) : string * string * string * list string :=
  (modo_val p, cpu_val p, latencia_val p, kpi_estado p).

Abbreviation DOM := (M page).

(** *** Primitives of the page *)

(** [console.error(label, error)] *)
Definition console_error (label : string) (e : exn) : DOM unit :=
  modify (fun p => set_console (console p ++ [(label, e)]) p).

(** [fetch(url, {method, body})] up to the [await]: the request leaves and
    the caller's continuation [k] waits for the response. *)
Definition fetch (u m : string) (b : option value) (k : cont) : DOM unit :=
  modify (fun p =>
    set_inflight (inflight p ++ [k]) (set_sent (sent p ++ [mkRequest u m b]) p)).

(** [classList.add(c)] *)
Definition classList_add (c : string) (classes : list string) : list string :=
  if existsb (String.eqb c) classes then classes else classes ++ [c].

(** Reading and writing a property of the element a reference denotes; a
    reference that denotes no element of the page raises, as [null] does. *)
Definition read_button (btn : nat) : DOM button :=
  b <- gets (fun p => buttons p !! btn) ;;
  match b with
  | Some x => ret x
  | None => throw TypeError
  end.

Definition write_button (btn : nat) (f : button -> button) : DOM unit :=
  b <- read_button btn ;;
  modify (fun p => set_buttons (<[btn := f b]> (buttons p)) p).

Definition spinner : string :=
  "<span class=" +:+ dq +:+ "spinner" +:+ dq +:+ "></span>".

(** [const res = await fetch(...)], once the fetch has settled to [r]. *)
Definition await_fetch (r : fetch_result) : DOM (Z * option value) :=
  match r with
  | NetworkFailure => throw FetchFailed
  | Response status b => ret (status, b)
  end.

(** *** The functions of the script *)

(** [mostrarNotificacion(mensaje, tipo)].  [querySelector] finds the first
    notification of the document, which is removed; the new element goes
    to the end of the body, and its first timer is set. *)
Definition mostrarNotificacion (mensaje : value) (tipo : string) : DOM unit :=
  modify (fun p =>
    match notificaciones p with
    | [] => p
    | _ :: rest => set_notificaciones rest p
    end) ;;;
  n <- gets next_el ;;
  let notif := mkNotif n ("notificacion " +:+ tipo) (text_content mensaje) EmptyString in
  modify (set_next_el (S n)) ;;;
  modify (fun p => set_notificaciones (notificaciones p ++ [notif]) p) ;;;
  modify (fun p => set_timers (timers p ++ [SlideOut n]) p).

(** [actualizarUI(estado)] *)
Definition actualizarUI (estado : value) : DOM unit :=
  m <- get_prop estado "modo_actual" ;;
  modify (set_modo_val (text_content m)) ;;;
  c <- get_prop estado "carga_cpu" ;;
  modify (set_cpu_val (text_content c)) ;;;
  l <- get_prop estado "latencia" ;;
  modify (set_latencia_val (text_content l)) ;;;
  modify (set_kpi_estado ["kpi"]) ;;;
  m1 <- get_prop estado "modo_actual" ;;
  if is_str m1 "OFF" then
    modify (fun p => set_kpi_estado (classList_add "status-off" (kpi_estado p)) p)
  else
    m2 <- get_prop estado "modo_actual" ;;
    if is_str m2 "STANDBY" then
      modify (fun p => set_kpi_estado (classList_add "status-standby" (kpi_estado p)) p)
    else
      modify (fun p => set_kpi_estado (classList_add "status-on" (kpi_estado p)) p).

(** [cargarEstadoActual()], up to its [await] ... *)
Definition cargarEstadoActual : DOM unit :=
  fetch "/api/estado" "GET" None KEstado.

(** ... and from the response on. *)
Definition cargarEstadoActual_then (r : fetch_result) : DOM unit :=
  try_catch
    (res <- await_fetch r ;;
     if negb (res_ok (fst res)) then throw (Error "Error al obtener estado")
     else
       data <- json_of (snd res) ;;
       s <- get_prop data "status" ;;
       if is_str s "success" then
         estado <- get_prop data "estado" ;;
         actualizarUI estado
       else ret tt)
    (fun e =>
       console_error "Error:" e ;;;
       mostrarNotificacion (VStr "Error al cargar estado del sistema") "error").

(** One row of the log box, as the template literal of [cargarLogs]
    lays it out. *)
Definition log_row (nivel fecha usuario evento detalle : string) : string :=
  nl +:+ sp 16 +:+ "<div class=" +:+ dq +:+ "log-row " +:+ nivel +:+ dq +:+ ">" +:+
  nl +:+ sp 20 +:+ "[" +:+ fecha +:+ "] [" +:+ nivel +:+ "] " +:+ usuario +:+ ": " +:+
    evento +:+ " - " +:+ detalle +:+
  nl +:+ sp 16 +:+ "</div>" +:+
  nl +:+ sp 12.

(** The callback of [data.logs.forEach]. *)
Definition append_log (log : value) : DOM unit :=
  n <- get_prop log "nivel" ;;
  let nivel := js_or n (VStr "INFO") in
  old <- gets log_box ;;
  fecha <- get_prop log "fecha" ;;
  usuario <- get_prop log "usuario" ;;
  evento <- get_prop log "evento" ;;
  detalle <- get_prop log "detalle" ;;
  modify (set_log_box
    (old +:+ log_row (to_string nivel) (to_string fecha) (to_string usuario)
                     (to_string evento) (to_string detalle))).

(** [cargarLogs()], up to its [await] ... *)
Definition cargarLogs : DOM unit :=
  fetch "/api/historial?limite=15" "GET" None KLogs.

(** ... and from the response on. *)
Definition cargarLogs_then (r : fetch_result) : DOM unit :=
  try_catch
    (res <- await_fetch r ;;
     if negb (res_ok (fst res)) then throw (Error "Error al cargar logs")
     else
       data <- json_of (snd res) ;;
       s <- get_prop data "status" ;;
       if negb (is_str s "success") then ret tt
       else
         modify (set_log_box EmptyString) ;;;
         logs <- get_prop data "logs" ;;
         for_each logs append_log ;;;
         modify (set_log_scrollTop 0))
    (fun e => console_error "Error al cargar logs:" e).

(** [enviarComando(modo, btn)], up to its [await] ... *)
Definition enviarComando (modo : string) (btn : nat) : DOM unit :=
  write_button btn (fun b => mkButton true (innerHTML b)) ;;;
  b <- read_button btn ;;
  let textoOriginal := innerHTML b in
  write_button btn (fun b => mkButton (disabled b) (innerHTML b +:+ spinner)) ;;;
  fetch "/api/cambiar_modo" "POST" (Some (VObj [("modo", VStr modo)]))
    (KComando btn textoOriginal).

(** ... and from the response on, with [btn] and [textoOriginal] as the
    closure kept them. *)
Definition enviarComando_then (btn : nat) (textoOriginal : string)
    (r : fetch_result) : DOM unit :=
  try_finally
    (try_catch
       (res <- await_fetch r ;;
        data <- json_of (snd res) ;;
        if (fst res =? 429)%Z then
          mostrarNotificacion (VStr "Demasiadas solicitudes. Espere un momento.") "error"
        else
          s <- get_prop data "status" ;;
          if is_str s "success" then
            estado <- get_prop data "estado" ;;
            actualizarUI estado ;;;
            msg <- get_prop data "msg" ;;
            mostrarNotificacion msg "success" ;;;
            cargarLogs
          else
            s' <- get_prop data "status" ;;
            if is_str s' "info" then
              msg <- get_prop data "msg" ;;
              mostrarNotificacion msg "info"
            else
              msg <- get_prop data "msg" ;;
              mostrarNotificacion msg "error")
       (fun e =>
          console_error "Error:" e ;;;
          mostrarNotificacion (VStr "Error de conexión con el servidor") "error"))
    (write_button btn (fun b => mkButton false (innerHTML b)) ;;;
     write_button btn (fun b => mkButton (disabled b) textoOriginal)).

(** [confirmarApagado(btn)] *)
Definition confirmarApagado (btn : nat) : DOM unit :=
  modify (set_btnActual (Some btn)) ;;;
  modify (set_modal_confirm "block").

(** [cerrarModal()] *)
Definition cerrarModal : DOM unit :=
  modify (set_modal_confirm "none") ;;;
  modify (set_btnActual None).

(** [confirmarApagadoFinal()], up to its [await] ... *)
Definition confirmarApagadoFinal : DOM unit :=
  actual <- gets btnActual ;;
  match actual with
  | None => cerrarModal
  | Some btn =>
      cerrarModal ;;;
      write_button btn (fun b => mkButton true (innerHTML b)) ;;;
      b <- read_button btn ;;
      let textoOriginal := innerHTML b in
      write_button btn (fun b => mkButton (disabled b) (textoOriginal +:+ spinner)) ;;;
      fetch "/api/cambiar_modo" "POST"
        (Some (VObj [("modo", VStr "OFF"); ("confirmado", VBool true)]))
        (KApagado btn textoOriginal)
  end.

(** ... and from the response on. *)
Definition confirmarApagadoFinal_then (btn : nat) (textoOriginal : string)
    (r : fetch_result) : DOM unit :=
  try_finally
    (try_catch
       (res <- await_fetch r ;;
        data <- json_of (snd res) ;;
        s <- get_prop data "status" ;;
        if is_str s "success" then
          estado <- get_prop data "estado" ;;
          actualizarUI estado ;;;
          mostrarNotificacion (VStr "Sistema apagado correctamente") "success" ;;;
          cargarLogs
        else
          msg <- get_prop data "msg" ;;
          mostrarNotificacion msg "error")
       (fun e =>
          console_error "Error:" e ;;;
          mostrarNotificacion (VStr "Error de conexión") "error"))
    (write_button btn (fun b => mkButton false (innerHTML b)) ;;;
     write_button btn (fun b => mkButton (disabled b) textoOriginal)).

(** *** The event loop *)

(** The continuation [k] runs with the settled fetch. *)
Definition resume (k : cont) (r : fetch_result) : DOM unit :=
  match k with
  | KEstado => cargarEstadoActual_then r
  | KComando btn texto => enviarComando_then btn texto r
  | KApagado btn texto => confirmarApagadoFinal_then btn texto r
  | KLogs => cargarLogs_then r
  end.

(** The callbacks [mostrarNotificacion] leaves with [setTimeout]: the first
    starts the slide-out of its element and sets the second, which removes
    the element. *)
Definition fire (t : timer) : DOM unit :=
  match t with
  | SlideOut n =>
      modify (fun p => set_notificaciones
        (map (fun x => if Nat.eqb (el x) n
                       then mkNotif (el x) (className x) (textContent x)
                              "slideOutRight 0.3s ease"
                       else x) (notificaciones p)) p) ;;;
      modify (fun p => set_timers (timers p ++ [Remove n]) p)
  | Remove n =>
      modify (fun p => set_notificaciones
        (List.filter (fun x => negb (Nat.eqb (el x) n)) (notificaciones p)) p)
  end.

(** What can happen to the page: the handlers the script installs or
    exports, a pending fetch settling, a pending timer firing. *)
Inductive event : Type :=
| EvDOMContentLoaded
| EvInterval
| EvEnviarComando (modo : string) (btn : nat)
| EvConfirmarApagado (btn : nat)
| EvCerrarModal
| EvConfirmarApagadoFinal
| EvWindowClick (on_modal : bool)
| EvSettled (i : nat) (r : fetch_result)
| EvTimeout (i : nat).

Definition handle (ev : event) : DOM unit :=
  match ev with
  | EvDOMContentLoaded => cargarEstadoActual ;;; cargarLogs
  | EvInterval => cargarLogs
  | EvEnviarComando modo btn => enviarComando modo btn
  | EvConfirmarApagado btn => confirmarApagado btn
  | EvCerrarModal => cerrarModal
  | EvConfirmarApagadoFinal => confirmarApagadoFinal
  | EvWindowClick on_modal => if on_modal then cerrarModal else ret tt
  | EvSettled i r =>
      ks <- gets inflight ;;
      match ks !! i with
      | Some k => modify (set_inflight (delete i ks)) ;;; resume k r
      | None => ret tt
      end
  | EvTimeout i =>
      ts <- gets timers ;;
      match ts !! i with
      | Some t => modify (set_timers (delete i ts)) ;;; fire t
      | None => ret tt
      end
  end.

Definition step (p : page) (ev : event) : page := exec (handle ev) p.

Definition run (evs : list event) (p : page) : page := fold_left step evs p.

(** *** Vocabulary of the properties *)

(** [v.k], with [undefined] where the access would raise. *)
Definition field (v : value) (k : string) : value :=
  match prop v k with
  | Some x => x
  | None => VUndef
  end.

(** The row a log entry is shown as: its level, or INFO when the level is
    missing, then date, user, event and detail. *)
Definition rendered_log (log : value) : string :=
  log_row (to_string (js_or (field log "nivel") (VStr "INFO")))
    (to_string (field log "fecha")) (to_string (field log "usuario"))
    (to_string (field log "evento")) (to_string (field log "detalle")).

(** An element of the log list that has properties to read: anything but
    [null] and [undefined]. *)
Definition is_entry (log : value) : Prop := log <> VUndef /\ log <> VNull.

(** Rows one after the other, first entry first. *)
Definition rows (l : list string) : string := fold_right append EmptyString l.

(** A log refresh that fails: the fetch rejects, the status is not 2xx,
    the body does not parse, or its [status] is not ["success"]. *)
Definition log_refresh_failed (r : fetch_result) : Prop :=
  match r with
  | NetworkFailure => True
  | Response status b =>
      res_ok status = false \/
      match b with
      | None => True
      | Some d => forall s, prop d "status" = Some s -> is_str s "success" = false
      end
  end.

(** At most one notification element is in the document. *)
Definition at_most_one (p : page) : Prop :=
  (length (notificaciones p) <= 1)%nat.

(** *** Sample data *)

(** A page before any answer has arrived: two command buttons, nothing
    shown, nothing pending. *)
Definition sample_page : page :=
  mkPage "--" "--" "--" ["kpi"] [] 0 [] EmptyString 0 "none" None
    (<[1%nat := mkButton false "Cine"]> (<[2%nat := mkButton false "Apagar"]> ∅))
    [] [] [].

(** [{status: "success", logs: [{fecha: "t1"}, {fecha: "t2"}]}] *)
Definition sample_logs : value :=
  VObj [("status", VStr "success");
        ("logs", VArr [VObj [("fecha", VStr "t1")]; VObj [("fecha", VStr "t2")]])].

(** [{status: "success", estado: {modo_actual: "CINE", carga_cpu: 88,
    latencia: 24}, msg: "Modo cambiado"}] *)
Definition sample_success : value :=
  VObj [("status", VStr "success");
        ("estado", VObj [("modo_actual", VStr "CINE");
                         ("carga_cpu", VNum 88);
                         ("latencia", VNum 24)]);
        ("msg", VStr "Modo cambiado")].


End Dashboard.

(** ** The admin script: user form and destructive actions *)

Module Admin.
Import JS.
Local Open Scope js_scope.

(** The inputs of [form-usuario]. *)
Record form : Type := mkForm {
  usuario_id : string;
  usuario_username : string;
  usuario_password : string;
  usuario_nombre : string;
  usuario_email : string;
  usuario_rol : string
}.

Inductive cont : Type :=
| KGuardar
| KEliminar
| KLimpiar
| KUsuarios
| KEstadisticas.

(** The page: the user form and what [reset()] restores it to, the two
    modals, the days input of the cleanup modal, the [alert] and [confirm]
    dialogs shown so far, and the fetches pending and sent. *)
Record page : Type := mkPage {
  form_usuario : form;
  form_defaults : form;
  modal_usuario : string;
  modal_usuario_titulo : string;
  modal_limpiar_logs : string;
  dias_mantener : string;
  dialogs : list string;
  inflight : list cont;
  sent : list request;
  console : list (string * exn)
}.

Definition set_form_usuario (x : form) (p : page) : page :=
  mkPage x (form_defaults p) (modal_usuario p) (modal_usuario_titulo p)
    (modal_limpiar_logs p) (dias_mantener p) (dialogs p) (inflight p) (sent p)
    (console p).
Definition set_modal_usuario (x : string) (p : page) : page :=
  mkPage (form_usuario p) (form_defaults p) x (modal_usuario_titulo p)
    (modal_limpiar_logs p) (dias_mantener p) (dialogs p) (inflight p) (sent p)
    (console p).
Definition set_modal_usuario_titulo (x : string) (p : page) : page :=
  mkPage (form_usuario p) (form_defaults p) (modal_usuario p) x
    (modal_limpiar_logs p) (dias_mantener p) (dialogs p) (inflight p) (sent p)
    (console p).
Definition set_modal_limpiar_logs (x : string) (p : page) : page :=
  mkPage (form_usuario p) (form_defaults p) (modal_usuario p) (modal_usuario_titulo p)
    x (dias_mantener p) (dialogs p) (inflight p) (sent p) (console p).
Definition set_dialogs (x : list string) (p : page) : page :=
  mkPage (form_usuario p) (form_defaults p) (modal_usuario p) (modal_usuario_titulo p)
    (modal_limpiar_logs p) (dias_mantener p) x (inflight p) (sent p) (console p).
Definition set_inflight (x : list cont) (p : page) : page :=
  mkPage (form_usuario p) (form_defaults p) (modal_usuario p) (modal_usuario_titulo p)
    (modal_limpiar_logs p) (dias_mantener p) (dialogs p) x (sent p) (console p).
Definition set_sent (x : list request) (p : page) : page :=
  mkPage (form_usuario p) (form_defaults p) (modal_usuario p) (modal_usuario_titulo p)
    (modal_limpiar_logs p) (dias_mantener p) (dialogs p) (inflight p) x (console p).
Definition set_console (x : list (string * exn)) (p : page) : page :=
  mkPage (form_usuario p) (form_defaults p) (modal_usuario p) (modal_usuario_titulo p)
    (modal_limpiar_logs p) (dias_mantener p) (dialogs p) (inflight p) (sent p) x.

Definition set_usuario_id (x : string) (f : form) : form :=
  mkForm x (usuario_username f) (usuario_password f) (usuario_nombre f)
    (usuario_email f) (usuario_rol f).

Abbreviation DOM := (M page).

Definition console_error (label : string) (e : exn) : DOM unit :=
  modify (fun p => set_console (console p ++ [(label, e)]) p).

Definition fetch (u m : string) (b : option value) (k : cont) : DOM unit :=
  modify (fun p =>
    set_inflight (inflight p ++ [k]) (set_sent (sent p ++ [mkRequest u m b]) p)).

Definition await_fetch (r : fetch_result) : DOM (Z * option value) :=
  match r with
  | NetworkFailure => throw FetchFailed
  | Response status b => ret (status, b)
  end.

(** [alert(msg)] *)
Definition alert (msg : string) : DOM unit :=
  modify (fun p => set_dialogs (dialogs p ++ [msg]) p).

(** [confirm(msg)]: the prompt is shown and the user answers [answer]. *)
Definition confirm (msg : string) (answer : bool) : DOM bool :=
  modify (fun p => set_dialogs (dialogs p ++ [msg]) p) ;;;
  ret answer.

(** *** [parseInt] without a radix *)

Definition is_space (c : ascii) : bool :=
  match nat_of_ascii c with
  | 9%nat | 10%nat | 11%nat | 12%nat | 13%nat | 32%nat => true
  | _ => false
  end.

Fixpoint skip_spaces (s : string) : string :=
  match s with
  | String c rest => if is_space c then skip_spaces rest else s
  | EmptyString => s
  end.

Definition digit_of (radix : Z) (c : ascii) : option Z :=
  let n := Z.of_nat (nat_of_ascii c) in
  let d :=
    if ((48 <=? n) && (n <=? 57))%Z then Some (n - 48)%Z
    else if ((97 <=? n) && (n <=? 122))%Z then Some (n - 87)%Z
    else if ((65 <=? n) && (n <=? 90))%Z then Some (n - 55)%Z
    else None in
  match d with
  | Some x => if (x <? radix)%Z then Some x else None
  | None => None
  end.

(** The value of the longest prefix of digits, if there is one. *)
Fixpoint digits (radix : Z) (s : string) (acc : option Z) : option Z :=
  match s with
  | String c rest =>
      match digit_of radix c with
      | Some d =>
          digits radix rest
            (Some (match acc with Some a => a * radix + d | None => d end)%Z)
      | None => acc
      end
  | EmptyString => acc
  end.

Definition parseInt (s : string) : value :=
  let s1 := skip_spaces s in
  let '(neg, s2) :=
    match s1 with
    | String "-" rest => (true, rest)
    | String "+" rest => (false, rest)
    | _ => (false, s1)
    end in
  let '(radix, s3) :=
    match s2 with
    | String "0" (String "x" rest) => (16%Z, rest)
    | String "0" (String "X" rest) => (16%Z, rest)
    | _ => (10%Z, s2)
    end in
  match digits radix s3 None with
  | Some n => VNum (if neg then - n else n)
  | None => VNaN
  end.

(** *** The functions of the script *)

(** [cargarUsuarios()] and [cargarEstadisticas()] up to their [await]: the
    list and the counters are asked for again.  What they render when the
    answer arrives is not part of this development. *)
Definition cargarUsuarios : DOM unit :=
  fetch "/api/admin/usuarios" "GET" None KUsuarios.

Definition cargarEstadisticas : DOM unit :=
  fetch "/api/admin/estadisticas" "GET" None KEstadisticas.

(** [mostrarModalUsuario(userId = null)] *)
Definition mostrarModalUsuario (userId : value) : DOM unit :=
  let userId := match userId with VUndef => VNull | _ => userId end in
  modify (set_modal_usuario "block") ;;;
  if truthy userId then
    modify (set_modal_usuario_titulo "Editar Usuario") ;;;
    modify (fun p => set_form_usuario (set_usuario_id (to_string userId) (form_usuario p)) p)
  else
    modify (set_modal_usuario_titulo "Nuevo Usuario") ;;;
    modify (fun p => set_form_usuario (form_defaults p) p) ;;;
    modify (fun p => set_form_usuario (set_usuario_id EmptyString (form_usuario p)) p).

(** [cerrarModalUsuario()] *)
Definition cerrarModalUsuario : DOM unit :=
  modify (set_modal_usuario "none") ;;;
  modify (fun p => set_form_usuario (form_defaults p) p).

(** [guardarUsuario(event)], up to its [await] ... *)
Definition guardarUsuario : DOM unit :=
  f <- gets form_usuario ;;
  let userId := usuario_id f in
  let datos := VObj [
    ("username", VStr (usuario_username f));
    ("password", VStr (usuario_password f));
    ("nombre_completo", VStr (usuario_nombre f));
    ("email", VStr (usuario_email f));
    ("rol", VStr (usuario_rol f)) ] in
  fetch "/api/admin/usuarios" "POST" (Some datos) KGuardar.

(** ['Error: ' + (data.error || 'Error desconocido')] *)
Definition error_msg (data : value) : DOM string :=
  e <- get_prop data "error" ;;
  ret ("Error: " +:+ to_string (js_or e (VStr "Error desconocido"))).

(** ... and from the response on. *)
Definition guardarUsuario_then (r : fetch_result) : DOM unit :=
  try_catch
    (res <- await_fetch r ;;
     data <- json_of (snd res) ;;
     s <- get_prop data "status" ;;
     if is_str s "success" then
       alert "Usuario guardado correctamente" ;;;
       cerrarModalUsuario ;;;
       cargarUsuarios ;;;
       cargarEstadisticas
     else
       m <- error_msg data ;;
       alert m)
    (fun e =>
       console_error "Error al guardar usuario:" e ;;;
       alert "Error de conexión").

(** [confirmarEliminarUsuario(userId)], up to its [await], with the user's
    answer to the prompt ... *)
Definition confirmarEliminarUsuario (userId : value) (answer : bool) : DOM unit :=
  ok <- confirm "¿Está seguro que desea desactivar este usuario?" answer ;;
  if negb ok then ret tt
  else
    fetch ("/api/admin/usuarios/" +:+ to_string userId) "DELETE" None KEliminar.

(** ... and from the response on. *)
Definition confirmarEliminarUsuario_then (r : fetch_result) : DOM unit :=
  try_catch
    (res <- await_fetch r ;;
     data <- json_of (snd res) ;;
     s <- get_prop data "status" ;;
     if is_str s "success" then
       alert "Usuario desactivado correctamente" ;;;
       cargarUsuarios ;;;
       cargarEstadisticas
     else
       m <- error_msg data ;;
       alert m)
    (fun e =>
       console_error "Error al eliminar usuario:" e ;;;
       alert "Error de conexión").

(** [cerrarModalLimpiarLogs()] *)
Definition cerrarModalLimpiarLogs : DOM unit :=
  modify (set_modal_limpiar_logs "none").

(** [ejecutarLimpiezaLogs()], up to its [await], with the user's answer to
    the prompt ... *)
Definition ejecutarLimpiezaLogs (answer : bool) : DOM unit :=
  dias <- gets dias_mantener ;;
  ok <- confirm ("Se eliminarán todos los logs anteriores a " +:+ dias +:+
                 " días. ¿Continuar?") answer ;;
  if negb ok then ret tt
  else
    fetch "/api/admin/logs/limpiar" "POST" (Some (VObj [("dias", parseInt dias)]))
      KLimpiar.

(** ... and from the response on. *)
Definition ejecutarLimpiezaLogs_then (r : fetch_result) : DOM unit :=
  try_catch
    (res <- await_fetch r ;;
     data <- json_of (snd res) ;;
     s <- get_prop data "status" ;;
     if is_str s "success" then
       n <- get_prop data "eliminados" ;;
       alert ("Limpieza completada. " +:+ to_string n +:+ " registros eliminados") ;;;
       cerrarModalLimpiarLogs ;;;
       cargarEstadisticas
     else
       m <- error_msg data ;;
       alert m)
    (fun e =>
       console_error "Error al limpiar logs:" e ;;;
       alert "Error de conexión").

End Admin.

(** ** The admin script: counters, tables, search, timeline, configuration, tabs *)

Module AdminViews.
Import JS.
Local Open Scope js_scope.

(** The rest of an [async] function, waiting for its fetch to settle. *)
Inductive cont : Type :=
| KEstadisticas
| KUsuarios
| KBuscar
| KAnaliticas
| KTimeline
| KConfiguraciones
| KActualizar.

(** The page: the four counters, the user table, the search filters and
    their results, the timeline, the configuration grid and the value of
    its inputs by id, the tab panes by id and the tab buttons with their
    [active] class, the address the browser was sent to, the alerts shown,
    and the fetches pending and sent. *)
Record page : Type := mkPage {
  total_logs : string;
  usuarios_activos : string;
  cambios_hoy : string;
  errores_total : string;
  tabla_usuarios : string;
  filtro_usuario : string;
  filtro_nivel : string;
  filtro_fecha_desde : string;
  filtro_fecha_hasta : string;
  tabla_logs : string;
  timeline_modos : string;
  config_grid : string;
  inputs : gmap string string;
  tabs : gmap string bool;
  tab_btns : gmap nat bool;
  location : string;
  dialogs : list string;
  inflight : list cont;
  sent : list request;
  console : list (string * exn)
}.

Definition set_total_logs (x : string) (p : page) : page :=
  mkPage x (usuarios_activos p) (cambios_hoy p) (errores_total p) (tabla_usuarios p)
    (filtro_usuario p) (filtro_nivel p) (filtro_fecha_desde p) (filtro_fecha_hasta p)
    (tabla_logs p) (timeline_modos p) (config_grid p) (inputs p) (tabs p) (tab_btns p)
    (location p) (dialogs p) (inflight p) (sent p) (console p).
Definition set_usuarios_activos (x : string) (p : page) : page :=
  mkPage (total_logs p) x (cambios_hoy p) (errores_total p) (tabla_usuarios p)
    (filtro_usuario p) (filtro_nivel p) (filtro_fecha_desde p) (filtro_fecha_hasta p)
    (tabla_logs p) (timeline_modos p) (config_grid p) (inputs p) (tabs p) (tab_btns p)
    (location p) (dialogs p) (inflight p) (sent p) (console p).
Definition set_cambios_hoy (x : string) (p : page) : page :=
  mkPage (total_logs p) (usuarios_activos p) x (errores_total p) (tabla_usuarios p)
    (filtro_usuario p) (filtro_nivel p) (filtro_fecha_desde p) (filtro_fecha_hasta p)
    (tabla_logs p) (timeline_modos p) (config_grid p) (inputs p) (tabs p) (tab_btns p)
    (location p) (dialogs p) (inflight p) (sent p) (console p).
Definition set_errores_total (x : string) (p : page) : page :=
  mkPage (total_logs p) (usuarios_activos p) (cambios_hoy p) x (tabla_usuarios p)
    (filtro_usuario p) (filtro_nivel p) (filtro_fecha_desde p) (filtro_fecha_hasta p)
    (tabla_logs p) (timeline_modos p) (config_grid p) (inputs p) (tabs p) (tab_btns p)
    (location p) (dialogs p) (inflight p) (sent p) (console p).
Definition set_tabla_usuarios (x : string) (p : page) : page :=
  mkPage (total_logs p) (usuarios_activos p) (cambios_hoy p) (errores_total p) x
    (filtro_usuario p) (filtro_nivel p) (filtro_fecha_desde p) (filtro_fecha_hasta p)
    (tabla_logs p) (timeline_modos p) (config_grid p) (inputs p) (tabs p) (tab_btns p)
    (location p) (dialogs p) (inflight p) (sent p) (console p).
Definition set_tabla_logs (x : string) (p : page) : page :=
  mkPage (total_logs p) (usuarios_activos p) (cambios_hoy p) (errores_total p)
    (tabla_usuarios p) (filtro_usuario p) (filtro_nivel p) (filtro_fecha_desde p)
    (filtro_fecha_hasta p) x (timeline_modos p) (config_grid p) (inputs p) (tabs p)
    (tab_btns p) (location p) (dialogs p) (inflight p) (sent p) (console p).
Definition set_timeline_modos (x : string) (p : page) : page :=
  mkPage (total_logs p) (usuarios_activos p) (cambios_hoy p) (errores_total p)
    (tabla_usuarios p) (filtro_usuario p) (filtro_nivel p) (filtro_fecha_desde p)
    (filtro_fecha_hasta p) (tabla_logs p) x (config_grid p) (inputs p) (tabs p)
    (tab_btns p) (location p) (dialogs p) (inflight p) (sent p) (console p).
Definition set_config_grid (x : string) (p : page) : page :=
  mkPage (total_logs p) (usuarios_activos p) (cambios_hoy p) (errores_total p)
    (tabla_usuarios p) (filtro_usuario p) (filtro_nivel p) (filtro_fecha_desde p)
    (filtro_fecha_hasta p) (tabla_logs p) (timeline_modos p) x (inputs p) (tabs p)
    (tab_btns p) (location p) (dialogs p) (inflight p) (sent p) (console p).
Definition set_tabs (x : gmap string bool) (p : page) : page :=
  mkPage (total_logs p) (usuarios_activos p) (cambios_hoy p) (errores_total p)
    (tabla_usuarios p) (filtro_usuario p) (filtro_nivel p) (filtro_fecha_desde p)
    (filtro_fecha_hasta p) (tabla_logs p) (timeline_modos p) (config_grid p) (inputs p)
    x (tab_btns p) (location p) (dialogs p) (inflight p) (sent p) (console p).
Definition set_tab_btns (x : gmap nat bool) (p : page) : page :=
  mkPage (total_logs p) (usuarios_activos p) (cambios_hoy p) (errores_total p)
    (tabla_usuarios p) (filtro_usuario p) (filtro_nivel p) (filtro_fecha_desde p)
    (filtro_fecha_hasta p) (tabla_logs p) (timeline_modos p) (config_grid p) (inputs p)
    (tabs p) x (location p) (dialogs p) (inflight p) (sent p) (console p).
Definition set_location (x : string) (p : page) : page :=
  mkPage (total_logs p) (usuarios_activos p) (cambios_hoy p) (errores_total p)
    (tabla_usuarios p) (filtro_usuario p) (filtro_nivel p) (filtro_fecha_desde p)
    (filtro_fecha_hasta p) (tabla_logs p) (timeline_modos p) (config_grid p) (inputs p)
    (tabs p) (tab_btns p) x (dialogs p) (inflight p) (sent p) (console p).
Definition set_dialogs (x : list string) (p : page) : page :=
  mkPage (total_logs p) (usuarios_activos p) (cambios_hoy p) (errores_total p)
    (tabla_usuarios p) (filtro_usuario p) (filtro_nivel p) (filtro_fecha_desde p)
    (filtro_fecha_hasta p) (tabla_logs p) (timeline_modos p) (config_grid p) (inputs p)
    (tabs p) (tab_btns p) (location p) x (inflight p) (sent p) (console p).
Definition set_inflight (x : list cont) (p : page) : page :=
  mkPage (total_logs p) (usuarios_activos p) (cambios_hoy p) (errores_total p)
    (tabla_usuarios p) (filtro_usuario p) (filtro_nivel p) (filtro_fecha_desde p)
    (filtro_fecha_hasta p) (tabla_logs p) (timeline_modos p) (config_grid p) (inputs p)
    (tabs p) (tab_btns p) (location p) (dialogs p) x (sent p) (console p).
Definition set_sent (x : list request) (p : page) : page :=
  mkPage (total_logs p) (usuarios_activos p) (cambios_hoy p) (errores_total p)
    (tabla_usuarios p) (filtro_usuario p) (filtro_nivel p) (filtro_fecha_desde p)
    (filtro_fecha_hasta p) (tabla_logs p) (timeline_modos p) (config_grid p) (inputs p)
    (tabs p) (tab_btns p) (location p) (dialogs p) (inflight p) x (console p).
Definition set_console (x : list (string * exn)) (p : page) : page :=
  mkPage (total_logs p) (usuarios_activos p) (cambios_hoy p) (errores_total p)
    (tabla_usuarios p) (filtro_usuario p) (filtro_nivel p) (filtro_fecha_desde p)
    (filtro_fecha_hasta p) (tabla_logs p) (timeline_modos p) (config_grid p) (inputs p)
    (tabs p) (tab_btns p) (location p) (dialogs p) (inflight p) (sent p) x.

Abbreviation DOM := (M page).

Definition console_error (label : string) (e : exn) : DOM unit :=
  modify (fun p => set_console (console p ++ [(label, e)]) p).

Definition fetch (u m : string) (b : option value) (k : cont) : DOM unit :=
  modify (fun p =>
    set_inflight (inflight p ++ [k]) (set_sent (sent p ++ [mkRequest u m b]) p)).

Definition await_fetch (r : fetch_result) : DOM (Z * option value) :=
  match r with
  | NetworkFailure => throw FetchFailed
  | Response status b => ret (status, b)
  end.

(** [alert(msg)] *)
Definition alert (msg : string) : DOM unit :=
  modify (fun p => set_dialogs (dialogs p ++ [msg]) p).

(** [v?.k] *)
Definition opt_prop (v : value) (k : string) : DOM value :=
  match v with
  | VUndef | VNull => ret VUndef
  | _ => get_prop v k
  end.

(** [v === 0] *)
Definition is_zero (v : value) : bool :=
  match v with
  | VNum n => (n =? 0)%Z
  | _ => false
  end.

(** *** Counters *)

(** [cargarEstadisticas()], up to its [await] ... *)
Definition cargarEstadisticas : DOM unit :=
  fetch "/api/admin/estadisticas" "GET" None KEstadisticas.

(** ... and from the response on. *)
Definition cargarEstadisticas_then (r : fetch_result) : DOM unit :=
  try_catch
    (res <- await_fetch r ;;
     data <- json_of (snd res) ;;
     s <- get_prop data "status" ;;
     if is_str s "success" then
       stats <- get_prop data "estadisticas" ;;
       t <- get_prop stats "total_logs" ;;
       modify (set_total_logs (text_content (js_or t (VNum 0)))) ;;;
       u <- get_prop stats "usuarios_activos" ;;
       modify (set_usuarios_activos (text_content (js_or u (VNum 0)))) ;;;
       c <- get_prop stats "cambios_hoy" ;;
       modify (set_cambios_hoy (text_content (js_or c (VNum 0)))) ;;;
       en <- get_prop stats "eventos_nivel" ;;
       e <- opt_prop en "ERROR" ;;
       let errores := js_or e (VNum 0) in
       modify (set_errores_total (text_content errores))
     else ret tt)
    (fun e => console_error "Error al cargar estadísticas:" e).

(** *** The user table *)

Definition badge (clase texto : string) : string :=
  "<span class=" +:+ dq +:+ "badge badge-" +:+ clase +:+ dq +:+ ">" +:+ texto +:+ "</span>".

Definition sin_usuarios : string :=
  "<tr><td colspan=" +:+ dq +:+ "8" +:+ dq +:+ " class=" +:+ dq +:+ "loading" +:+ dq +:+
  ">No hay usuarios registrados</td></tr>".

(** One row of the user table, as the template literal of [cargarUsuarios]
    lays it out. *)
Definition usuario_row (id username nombre email rolBadge estadoBadge ultimoAcceso : string) : string :=
  nl +:+ sp 20 +:+ "<tr>" +:+
  nl +:+ sp 24 +:+ "<td>" +:+ id +:+ "</td>" +:+
  nl +:+ sp 24 +:+ "<td><strong>" +:+ username +:+ "</strong></td>" +:+
  nl +:+ sp 24 +:+ "<td>" +:+ nombre +:+ "</td>" +:+
  nl +:+ sp 24 +:+ "<td>" +:+ email +:+ "</td>" +:+
  nl +:+ sp 24 +:+ "<td>" +:+ rolBadge +:+ "</td>" +:+
  nl +:+ sp 24 +:+ "<td>" +:+ estadoBadge +:+ "</td>" +:+
  nl +:+ sp 24 +:+ "<td>" +:+ ultimoAcceso +:+ "</td>" +:+
  nl +:+ sp 24 +:+ "<td>" +:+
  nl +:+ sp 28 +:+ "<div class=" +:+ dq +:+ "action-btns" +:+ dq +:+ ">" +:+
  nl +:+ sp 32 +:+ "<button class=" +:+ dq +:+ "btn-icon btn-edit" +:+ dq +:+ " onclick=" +:+ dq +:+ "editarUsuario(" +:+ id +:+ ")" +:+ dq +:+ ">Editar</button>" +:+
  nl +:+ sp 32 +:+ "<button class=" +:+ dq +:+ "btn-icon btn-delete" +:+ dq +:+ " onclick=" +:+ dq +:+ "confirmarEliminarUsuario(" +:+ id +:+ ")" +:+ dq +:+ ">Eliminar</button>" +:+
  nl +:+ sp 28 +:+ "</div>" +:+
  nl +:+ sp 24 +:+ "</td>" +:+
  nl +:+ sp 20 +:+ "</tr>" +:+
  nl +:+ sp 16.

(** The callback of [data.usuarios.forEach]. *)
Definition append_usuario (user : value) : DOM unit :=
  activo <- get_prop user "activo" ;;
  let estadoBadge :=
    if truthy activo then badge "activo" "Activo" else badge "inactivo" "Inactivo" in
  rol <- get_prop user "rol" ;;
  let rolBadge :=
    if is_str rol "admin" then badge "admin" "Admin" else badge "operador" "Operador" in
  ua <- get_prop user "ultimo_acceso" ;;
  let ultimoAcceso := js_or ua (VStr "Nunca") in
  old <- gets tabla_usuarios ;;
  id <- get_prop user "id" ;;
  username <- get_prop user "username" ;;
  nombre <- get_prop user "nombre_completo" ;;
  email <- get_prop user "email" ;;
  modify (set_tabla_usuarios
    (old +:+ usuario_row (to_string id) (to_string username)
               (to_string (js_or nombre (VStr "-"))) (to_string (js_or email (VStr "-")))
               rolBadge estadoBadge (to_string ultimoAcceso))).

(** [cargarUsuarios()], up to its [await] ... *)
Definition cargarUsuarios : DOM unit :=
  fetch "/api/admin/usuarios" "GET" None KUsuarios.

(** ... and from the response on. *)
Definition cargarUsuarios_then (r : fetch_result) : DOM unit :=
  try_catch
    (res <- await_fetch r ;;
     data <- json_of (snd res) ;;
     s <- get_prop data "status" ;;
     if is_str s "success" then
       modify (set_tabla_usuarios EmptyString) ;;;
       usuarios <- get_prop data "usuarios" ;;
       n <- get_prop usuarios "length" ;;
       if is_zero n then modify (set_tabla_usuarios sin_usuarios)
       else for_each usuarios append_usuario
     else ret tt)
    (fun e => console_error "Error al cargar usuarios:" e).

(** *** Log search *)

Definition sin_registros : string :=
  "<tr><td colspan=" +:+ dq +:+ "6" +:+ dq +:+ " class=" +:+ dq +:+ "loading" +:+ dq +:+
  ">No se encontraron registros</td></tr>".

(** One row of the search results, as the template literal of [buscarLogs]
    lays it out. *)
Definition busqueda_row (fecha clase nivel usuario evento detalles origen_ip : string) : string :=
  nl +:+ sp 20 +:+ "<tr>" +:+
  nl +:+ sp 24 +:+ "<td>" +:+ fecha +:+ "</td>" +:+
  nl +:+ sp 24 +:+ "<td><span class=" +:+ dq +:+ "badge badge-" +:+ clase +:+ dq +:+ ">" +:+ nivel +:+ "</span></td>" +:+
  nl +:+ sp 24 +:+ "<td>" +:+ usuario +:+ "</td>" +:+
  nl +:+ sp 24 +:+ "<td><strong>" +:+ evento +:+ "</strong></td>" +:+
  nl +:+ sp 24 +:+ "<td>" +:+ detalles +:+ "</td>" +:+
  nl +:+ sp 24 +:+ "<td>" +:+ origen_ip +:+ "</td>" +:+
  nl +:+ sp 20 +:+ "</tr>" +:+
  nl +:+ sp 16.

(** [buscarLogs()], up to its [await] ... *)
Definition buscarLogs : DOM unit :=
  usuario <- gets filtro_usuario ;;
  nivel <- gets filtro_nivel ;;
  desde <- gets filtro_fecha_desde ;;
  hasta <- gets filtro_fecha_hasta ;;
  let filtros := VObj [
    ("usuario", VStr usuario);
    ("nivel", VStr nivel);
    ("fecha_desde", VStr desde);
    ("fecha_hasta", VStr hasta);
    ("limite", VNum 100) ] in
  fetch "/api/admin/logs/buscar" "POST" (Some filtros) KBuscar.

Section Lower.
(** [String.prototype.toLowerCase], left to the engine. *)
Variable toLowerCase : string -> string.

(** [nivelClass.toLowerCase()]: only a string has the method. *)
Definition lower (nivelClass : value) : DOM string :=
  match nivelClass with
  | VStr s => ret (toLowerCase s)
  | _ => throw TypeError
  end.

(** The callback of [data.logs.forEach]. *)
Definition append_busqueda (log : value) : DOM unit :=
  n <- get_prop log "nivel" ;;
  let nivelClass := js_or n (VStr "INFO") in
  old <- gets tabla_logs ;;
  fecha <- get_prop log "fecha" ;;
  clase <- lower nivelClass ;;
  nivel <- get_prop log "nivel" ;;
  usuario <- get_prop log "usuario" ;;
  evento <- get_prop log "evento" ;;
  detalles <- get_prop log "detalles" ;;
  ip <- get_prop log "origen_ip" ;;
  modify (set_tabla_logs
    (old +:+ busqueda_row (to_string fecha) clase (to_string nivel)
               (to_string (js_or usuario (VStr "Sistema"))) (to_string evento)
               (to_string (js_or detalles (VStr "-"))) (to_string (js_or ip (VStr "-"))))).

(** ... and from the response on. *)
Definition buscarLogs_then (r : fetch_result) : DOM unit :=
  try_catch
    (res <- await_fetch r ;;
     data <- json_of (snd res) ;;
     s <- get_prop data "status" ;;
     if is_str s "success" then
       modify (set_tabla_logs EmptyString) ;;;
       logs <- get_prop data "logs" ;;
       n <- get_prop logs "length" ;;
       if is_zero n then modify (set_tabla_logs sin_registros)
       else for_each logs append_busqueda
     else ret tt)
    (fun e =>
       console_error "Error al buscar logs:" e ;;;
       alert "Error al buscar logs").
End Lower.

(** [exportarLogs()]: a navigation, not a fetch. *)
Definition exportarLogs : DOM unit :=
  modify (set_location "/api/admin/exportar/logs?limite=1000").

(** *** Timeline of mode changes *)

Definition sin_cambios : string :=
  "<p class=" +:+ dq +:+ "loading" +:+ dq +:+ ">No hay cambios registrados</p>".

(** One item of the timeline, as the template literal of
    [cargarTimelineModos] lays it out. *)
Definition timeline_item (fecha usuario previo nuevo detalles : string) : string :=
  nl +:+ sp 20 +:+ "<div class=" +:+ dq +:+ "timeline-item" +:+ dq +:+ ">" +:+
  nl +:+ sp 24 +:+ "<div class=" +:+ dq +:+ "timeline-date" +:+ dq +:+ ">" +:+ fecha +:+ "</div>" +:+
  nl +:+ sp 24 +:+ "<div class=" +:+ dq +:+ "timeline-content" +:+ dq +:+ ">" +:+
  nl +:+ sp 28 +:+ "<strong>" +:+ usuario +:+ "</strong> cambió de " +:+
  nl +:+ sp 28 +:+ "<strong>" +:+ previo +:+ "</strong> a " +:+
  nl +:+ sp 28 +:+ "<strong>" +:+ nuevo +:+ "</strong>" +:+
  nl +:+ sp 28 +:+ detalles +:+
  nl +:+ sp 24 +:+ "</div>" +:+
  nl +:+ sp 20 +:+ "</div>" +:+
  nl +:+ sp 16.

(** The callback of [data.timeline.forEach]. *)
Definition append_item (item : value) : DOM unit :=
  old <- gets timeline_modos ;;
  fecha <- get_prop item "fecha" ;;
  usuario <- get_prop item "usuario" ;;
  previo <- get_prop item "estado_previo" ;;
  nuevo <- get_prop item "estado_nuevo" ;;
  detalles <- get_prop item "detalles" ;;
  let extra :=
    if truthy detalles then "<br><small>" +:+ to_string detalles +:+ "</small>"
    else EmptyString in
  modify (set_timeline_modos
    (old +:+ timeline_item (to_string fecha) (to_string usuario)
               (to_string (js_or previo (VStr "N/A")))
               (to_string (js_or nuevo (VStr "N/A"))) extra)).

(** [cargarTimelineModos()], up to its [await] ... *)
Definition cargarTimelineModos : DOM unit :=
  fetch "/api/admin/analiticas/timeline-modos?limite=20" "GET" None KTimeline.

(** ... and from the response on. *)
Definition cargarTimelineModos_then (r : fetch_result) : DOM unit :=
  try_catch
    (res <- await_fetch r ;;
     data <- json_of (snd res) ;;
     s <- get_prop data "status" ;;
     if is_str s "success" then
       modify (set_timeline_modos EmptyString) ;;;
       timeline <- get_prop data "timeline" ;;
       n <- get_prop timeline "length" ;;
       if is_zero n then modify (set_timeline_modos sin_cambios)
       else for_each timeline append_item
     else ret tt)
    (fun e => console_error "Error al cargar timeline:" e).

(** [cargarAnaliticas()], up to its first [await]: it has called
    [cargarChartUsuarios()], which has sent its request.  The charts and
    the loads that follow are drawn with the charting library and are not
    part of this development. *)
Definition cargarAnaliticas : DOM unit :=
  fetch "/api/admin/analiticas/usuarios?limite=5" "GET" None KAnaliticas.

(** *** Configuration *)

(** One entry of the configuration grid, as the template literal of
    [cargarConfiguraciones] lays it out. *)
Definition config_item (clave descripcion tipo id valor : string) : string :=
  nl +:+ sp 20 +:+ "<div class=" +:+ dq +:+ "config-item" +:+ dq +:+ ">" +:+
  nl +:+ sp 24 +:+ "<h4>" +:+ clave +:+ "</h4>" +:+
  nl +:+ sp 24 +:+ "<p>" +:+ descripcion +:+ "</p>" +:+
  nl +:+ sp 24 +:+ "<input type=" +:+ dq +:+ tipo +:+ dq +:+ " " +:+
  nl +:+ sp 31 +:+ "id=" +:+ dq +:+ "config-" +:+ id +:+ dq +:+ " " +:+
  nl +:+ sp 31 +:+ "value=" +:+ dq +:+ valor +:+ dq +:+ ">" +:+
  nl +:+ sp 24 +:+ "<button class=" +:+ dq +:+ "btn-primary" +:+ dq +:+ " onclick=" +:+ dq +:+ "actualizarConfig('" +:+ clave +:+ "', 'config-" +:+ id +:+ "')" +:+ dq +:+ ">" +:+
  nl +:+ sp 28 +:+ "Guardar" +:+
  nl +:+ sp 24 +:+ "</button>" +:+
  nl +:+ sp 20 +:+ "</div>" +:+
  nl +:+ sp 16.

(** The callback of [data.configuraciones.forEach]. *)
Definition append_config (config : value) : DOM unit :=
  old <- gets config_grid ;;
  clave <- get_prop config "clave" ;;
  descripcion <- get_prop config "descripcion" ;;
  tipo <- get_prop config "tipo" ;;
  id <- get_prop config "id" ;;
  valor <- get_prop config "valor" ;;
  modify (set_config_grid
    (old +:+ config_item (to_string clave)
               (to_string (js_or descripcion (VStr "Sin descripción")))
               (if is_str tipo "integer" then "number" else "text")
               (to_string id) (to_string valor))).

(** [cargarConfiguraciones()], up to its [await] ... *)
Definition cargarConfiguraciones : DOM unit :=
  fetch "/api/admin/configuraciones" "GET" None KConfiguraciones.

(** ... and from the response on. *)
Definition cargarConfiguraciones_then (r : fetch_result) : DOM unit :=
  try_catch
    (res <- await_fetch r ;;
     data <- json_of (snd res) ;;
     s <- get_prop data "status" ;;
     if is_str s "success" then
       modify (set_config_grid EmptyString) ;;;
       configuraciones <- get_prop data "configuraciones" ;;
       for_each configuraciones append_config
     else ret tt)
    (fun e => console_error "Error al cargar configuraciones:" e).

(** [actualizarConfig(clave, inputId)], up to its [await]: the value is
    read before the [try], from the element [inputId] names ... *)
Definition actualizarConfig (clave inputId : string) : DOM unit :=
  input <- gets (fun p => inputs p !! inputId) ;;
  match input with
  | None => throw TypeError
  | Some valor =>
      fetch ("/api/admin/configuraciones/" +:+ clave) "PUT"
        (Some (VObj [("valor", VStr valor)])) KActualizar
  end.

(** ... and from the response on. *)
Definition actualizarConfig_then (r : fetch_result) : DOM unit :=
  try_catch
    (res <- await_fetch r ;;
     data <- json_of (snd res) ;;
     s <- get_prop data "status" ;;
     if is_str s "success" then
       alert "Configuración actualizada correctamente"
     else
       e <- get_prop data "error" ;;
       alert ("Error: " +:+ to_string (js_or e (VStr "Error desconocido"))))
    (fun e =>
       console_error "Error al actualizar configuración:" e ;;;
       alert "Error de conexión").

(** *** Tabs *)

(** [cambiarTab(tabName)], called from the click on the element [target].
    A pane is looked up by its id; a click that lands on no tab button
    marks an element outside the page. *)
Definition cambiarTab (tabName : string) (target : nat) : DOM unit :=
  modify (fun p => set_tabs ((fun _ => false) <$> tabs p) p) ;;;
  modify (fun p => set_tab_btns ((fun _ => false) <$> tab_btns p) p) ;;;
  pane <- gets (fun p => tabs p !! ("tab-" +:+ tabName)) ;;
  match pane with
  | None => throw TypeError
  | Some _ =>
      modify (fun p => set_tabs (<["tab-" +:+ tabName := true]> (tabs p)) p) ;;;
      modify (fun p =>
        match tab_btns p !! target with
        | Some _ => set_tab_btns (<[target := true]> (tab_btns p)) p
        | None => p
        end) ;;;
      if String.eqb tabName "usuarios" then cargarUsuarios
      else if String.eqb tabName "logs" then ret tt
      else if String.eqb tabName "analiticas" then cargarAnaliticas
      else if String.eqb tabName "config" then cargarConfiguraciones
      else ret tt
  end.

End AdminViews.

(** ** The login script *)

Module Login.
Import JS.
Local Open Scope js_scope.

(** The two [setTimeout] callbacks of the script: hiding the alert box,
    and following the redirect of the body [data]. *)
Inductive timer : Type :=
| HideAlert
| Redirect (data : value).

(** The page: the alert box, the login button, the two inputs, the
    address the browser was sent to, the timers pending, the number of
    login fetches pending, and the requests sent. *)
Record page : Type := mkPage {
  alert_text : string;
  alert_class : string;
  alert_display : string;
  btn_disabled : bool;
  btn_html : string;
  username : string;
  password : string;
  location : string;
  timers : list timer;
  inflight : nat;
  sent : list request
}.

Definition set_alert_text (x : string) (p : page) : page :=
  mkPage x (alert_class p) (alert_display p) (btn_disabled p) (btn_html p)
    (username p) (password p) (location p) (timers p) (inflight p) (sent p).
Definition set_alert_class (x : string) (p : page) : page :=
  mkPage (alert_text p) x (alert_display p) (btn_disabled p) (btn_html p)
    (username p) (password p) (location p) (timers p) (inflight p) (sent p).
Definition set_alert_display (x : string) (p : page) : page :=
  mkPage (alert_text p) (alert_class p) x (btn_disabled p) (btn_html p)
    (username p) (password p) (location p) (timers p) (inflight p) (sent p).
Definition set_btn_disabled (x : bool) (p : page) : page :=
  mkPage (alert_text p) (alert_class p) (alert_display p) x (btn_html p)
    (username p) (password p) (location p) (timers p) (inflight p) (sent p).
Definition set_btn_html (x : string) (p : page) : page :=
  mkPage (alert_text p) (alert_class p) (alert_display p) (btn_disabled p) x
    (username p) (password p) (location p) (timers p) (inflight p) (sent p).
Definition set_location (x : string) (p : page) : page :=
  mkPage (alert_text p) (alert_class p) (alert_display p) (btn_disabled p) (btn_html p)
    (username p) (password p) x (timers p) (inflight p) (sent p).
Definition set_timers (x : list timer) (p : page) : page :=
  mkPage (alert_text p) (alert_class p) (alert_display p) (btn_disabled p) (btn_html p)
    (username p) (password p) (location p) x (inflight p) (sent p).
Definition set_inflight (x : nat) (p : page) : page :=
  mkPage (alert_text p) (alert_class p) (alert_display p) (btn_disabled p) (btn_html p)
    (username p) (password p) (location p) (timers p) x (sent p).
Definition set_sent (x : list request) (p : page) : page :=
  mkPage (alert_text p) (alert_class p) (alert_display p) (btn_disabled p) (btn_html p)
    (username p) (password p) (location p) (timers p) (inflight p) x.

Abbreviation DOM := (M page).

Definition fetch (u m : string) (b : option value) : DOM unit :=
  modify (fun p =>
    set_inflight (S (inflight p)) (set_sent (sent p ++ [mkRequest u m b]) p)).

Definition await_fetch (r : fetch_result) : DOM (Z * option value) :=
  match r with
  | NetworkFailure => throw FetchFailed
  | Response status b => ret (status, b)
  end.

Definition set_timeout (t : timer) : DOM unit :=
  modify (fun p => set_timers (timers p ++ [t]) p).

(** [mostrarAlerta(mensaje, tipo)] *)
Definition mostrarAlerta (mensaje : value) (tipo : string) : DOM unit :=
  modify (set_alert_text (text_content mensaje)) ;;;
  modify (set_alert_class ("alert alert-" +:+ tipo)) ;;;
  modify (set_alert_display "block") ;;;
  if String.eqb tipo "success" then set_timeout HideAlert else ret tt.

Definition autenticando : string :=
  "Autenticando<span class=" +:+ dq +:+ "loading" +:+ dq +:+ "></span>".

(** [handleLogin(e)], up to its [await] ... *)
Definition handleLogin : DOM unit :=
  u <- gets username ;;
  pw <- gets password ;;
  modify (set_btn_disabled true) ;;;
  modify (set_btn_html autenticando) ;;;
  fetch "/login" "POST" (Some (VObj [("username", VStr u); ("password", VStr pw)])).

(** ... and from the response on. *)
Definition handleLogin_then (r : fetch_result) : DOM unit :=
  try_catch
    (res <- await_fetch r ;;
     data <- json_of (snd res) ;;
     ok <- (if res_ok (fst res) then
              s <- get_prop data "status" ;;
              ret (is_str s "success")
            else ret false) ;;
     if ok : bool then
       msg <- get_prop data "msg" ;;
       mostrarAlerta msg "success" ;;;
       set_timeout (Redirect data)
     else
       e <- get_prop data "error" ;;
       mostrarAlerta (js_or e (VStr "Error desconocido")) "error" ;;;
       modify (set_btn_disabled false) ;;;
       modify (set_btn_html "Iniciar Sesión"))
    (fun _ =>
       mostrarAlerta (VStr "Error de conexión con el servidor") "error" ;;;
       modify (set_btn_disabled false) ;;;
       modify (set_btn_html "Iniciar Sesión")).

(** The timer callbacks. *)
Definition fire (t : timer) : DOM unit :=
  match t with
  | HideAlert => modify (set_alert_display "none")
  | Redirect data =>
      to <- get_prop data "redirect" ;;
      modify (set_location (to_string to))
  end.

(** What can happen to the page: the form is submitted, a pending login
    fetch settles, a pending timer fires. *)
Inductive event : Type :=
| EvSubmit
| EvSettled (r : fetch_result)
| EvTimeout (i : nat).

Definition handle (ev : event) : DOM unit :=
  match ev with
  | EvSubmit => handleLogin
  | EvSettled r =>
      n <- gets inflight ;;
      match n with
      | O => ret tt
      | S n' => modify (set_inflight n') ;;; handleLogin_then r
      end
  | EvTimeout i =>
      ts <- gets timers ;;
      match ts !! i with
      | Some t => modify (set_timers (delete i ts)) ;;; fire t
      | None => ret tt
      end
  end.

Definition step (p : page) (ev : event) : page := exec (handle ev) p.

Definition run (evs : list event) (p : page) : page := fold_left step evs p.

(** *** Vocabulary of the properties *)

(** A login the script takes for accepted: a 2xx response whose body says
    success. *)
Definition accepted (r : fetch_result) : Prop :=
  exists status d,
    r = Response status (Some d) /\ res_ok status = true /\
    prop d "status" = Some (VStr "success").

Definition is_redirect (t : timer) : Prop :=
  match t with
  | Redirect _ => True
  | HideAlert => False
  end.

(** The login page as loaded, with the credentials typed in. *)
Definition sample_login : page :=
  mkPage EmptyString "alert" "none" false "Iniciar Sesión" "admin" "admin123"
    "/login" [] 0 [].

End Login.

(** ** Vocabulary for the views of the admin panel *)

Module AdminViewsExtra.
Import JS AdminViews.

Abbreviation field := Dashboard.field.
Abbreviation is_entry := Dashboard.is_entry.
Abbreviation rows := Dashboard.rows.

(** The row a user is shown as: "-" for a missing name or e-mail, "Nunca"
    for a missing last access, the Admin badge for the role admin and the
    Operador badge for any other, the Activo badge for an active user. *)
Definition rendered_usuario (user : value) : string :=
  usuario_row (to_string (field user "id")) (to_string (field user "username"))
    (to_string (js_or (field user "nombre_completo") (VStr "-")))
    (to_string (js_or (field user "email") (VStr "-")))
    (if is_str (field user "rol") "admin"
     then badge "admin" "Admin" else badge "operador" "Operador")
    (if truthy (field user "activo")
     then badge "activo" "Activo" else badge "inactivo" "Inactivo")
    (to_string (js_or (field user "ultimo_acceso") (VStr "Nunca"))).

(** The level a found log entry is styled with: its own, or INFO when
    it has none. *)
Definition nivel_class (log : value) : value :=
  js_or (field log "nivel") (VStr "INFO").

(** An entry that can be styled: its level, when it has one, is a
    string. *)
Definition has_text_level (log : value) : Prop :=
  is_entry log /\ exists s, nivel_class log = VStr s.

(** The row a found log entry is shown as: the badge class is the styling
    level in lower case, the badge text is the level as the server sent
    it. *)
Definition rendered_busqueda (toLowerCase : string -> string) (log : value) : string :=
  busqueda_row (to_string (field log "fecha"))
    (match nivel_class log with
     | VStr s => toLowerCase s
     | _ => EmptyString
     end)
    (to_string (field log "nivel"))
    (to_string (js_or (field log "usuario") (VStr "Sistema")))
    (to_string (field log "evento"))
    (to_string (js_or (field log "detalles") (VStr "-")))
    (to_string (js_or (field log "origen_ip") (VStr "-"))).

(** The item a mode change is shown as. *)
Definition rendered_item (item : value) : string :=
  timeline_item (to_string (field item "fecha")) (to_string (field item "usuario"))
    (to_string (js_or (field item "estado_previo") (VStr "N/A")))
    (to_string (js_or (field item "estado_nuevo") (VStr "N/A")))
    (if truthy (field item "detalles")
     then "<br><small>" +:+ to_string (field item "detalles") +:+ "</small>"
     else EmptyString).

(** The entry a configuration is shown as: a numeric input for the type
    integer, a text input for any other. *)
Definition rendered_config (config : value) : string :=
  config_item (to_string (field config "clave"))
    (to_string (js_or (field config "descripcion") (VStr "Sin descripción")))
    (if is_str (field config "tipo") "integer" then "number" else "text")
    (to_string (field config "id")) (to_string (field config "valor")).

(** The requests of the views. *)
Definition usuarios_request : request :=
  mkRequest "/api/admin/usuarios" "GET" None.
Definition analiticas_request : request :=
  mkRequest "/api/admin/analiticas/usuarios?limite=5" "GET" None.
Definition configuraciones_request : request :=
  mkRequest "/api/admin/configuraciones" "GET" None.

(** What a switch to the tab [tabName] asks the server for. *)
Definition tab_requests (tabName : string) : list request :=
  if String.eqb tabName "usuarios" then [usuarios_request]
  else if String.eqb tabName "analiticas" then [analiticas_request]
  else if String.eqb tabName "config" then [configuraciones_request]
  else [].

(** Lower case for the letters A to Z, for the examples. *)
Fixpoint ascii_lower (s : string) : string :=
  match s with
  | EmptyString => EmptyString
  | String c rest =>
      let n := nat_of_ascii c in
      String (if ((65 <=? n) && (n <=? 90))%nat then ascii_of_nat (n + 32) else c)
        (ascii_lower rest)
  end.

(** The admin panel with its four tabs, the users tab open, two
    configuration inputs and a filter typed in. *)
Definition sample_views : page :=
  mkPage "0" "0" "0" "0" EmptyString
    "ana" "ERROR" "2024-01-01" EmptyString
    EmptyString EmptyString EmptyString
    (<["config-1" := "30"]> (<["config-2" := "Auditorio"]> ∅))
    (<["tab-usuarios" := true]> (<["tab-logs" := false]>
       (<["tab-analiticas" := false]> (<["tab-config" := false]> ∅))))
    (<[0%nat := true]> (<[1%nat := false]> (<[2%nat := false]> (<[3%nat := false]> ∅))))
    "/admin" [] [] [] [].

End AdminViewsExtra.

(** ** Further vocabulary for the dashboard *)

Module DashboardExtra.
Import JS Dashboard.

(** A state fetch that ends in the [catch] of [cargarEstadoActual]: the
    fetch rejects, the status is not 2xx, the body does not parse or is
    [null], or it says success and carries no state. *)
Definition estado_fetch_failed (r : fetch_result) : Prop :=
  match r with
  | NetworkFailure => True
  | Response status b =>
      res_ok status = false \/
      match b with
      | None => True
      | Some d =>
          match prop d "status" with
          | None => True
          | Some s =>
              is_str s "success" = true /\
              match prop d "estado" with
              | Some e => prop e "modo_actual" = None
              | None => True
              end
          end
      end
  end.

(** The element a timer callback closes over. *)
Definition timer_el (t : timer) : nat :=
  match t with
  | SlideOut n => n
  | Remove n => n
  end.

(** Elements are numbered in the order [createElement] made them: every
    notification in the document and every pending timer is about an
    element made before the next one. *)
Definition fresh_ids (p : page) : Prop :=
  Forall (fun x => (el x < next_el p)%nat) (notificaciones p) /\
  Forall (fun t => (timer_el t < next_el p)%nat) (timers p).

(** The request [cargarLogs] sends. *)
Definition logs_request : request :=
  mkRequest "/api/historial?limite=15" "GET" None.

(** The request [confirmarApagadoFinal] sends. *)
Definition off_request : request :=
  mkRequest "/api/cambiar_modo" "POST"
    (Some (VObj [("modo", VStr "OFF"); ("confirmado", VBool true)])).

End DashboardExtra.

(** ** Further vocabulary for the admin panel *)

Module AdminExtra.
Import JS Admin.

(** The requests [cargarUsuarios] and [cargarEstadisticas] send. *)
Definition usuarios_request : request :=
  mkRequest "/api/admin/usuarios" "GET" None.

Definition estadisticas_request : request :=
  mkRequest "/api/admin/estadisticas" "GET" None.

(** A page of the admin panel with the user form filled in. *)
Definition sample_admin : page :=
  mkPage (mkForm "7" "ana" "secreto" "Ana Ruiz" "ana@example.org" "admin")
    (mkForm EmptyString EmptyString EmptyString EmptyString EmptyString "operador")
    "block" "Editar Usuario" "none" "30" [] [] [] [].

End AdminExtra.

(** * Properties *)

Import JS.
Local Open Scope list_scope.
Local Open Scope js_scope.

(** ** Frame reasoning for the monad

    [R] is a reflexive and transitive relation between the state before
    and the state after: "this field is as it was", "the invariant
    survives".  Each combinator preserves [R] when its parts do. *)

Section Preserves.
Context {S : Type} (R : S -> S -> Prop).
Hypothesis R_refl : forall s, R s s.
Hypothesis R_trans : forall s1 s2 s3, R s1 s2 -> R s2 s3 -> R s1 s3.

Lemma preserves_ret {A} (a : A) : preserves R (ret a).
Proof. intros s. apply R_refl. Qed.

Lemma preserves_throw {A} (e : exn) : preserves R (@throw S A e).
Proof. intros s. apply R_refl. Qed.

Lemma preserves_gets {A} (f : S -> A) : preserves R (gets f).
Proof. intros s. apply R_refl. Qed.

Lemma preserves_modify (f : S -> S) :
  (forall s, R s (f s)) -> preserves R (modify f).
Proof. intros H s. apply H. Qed.

Lemma preserves_bind {A B} (m : M S A) (k : A -> M S B) :
  preserves R m -> (forall a, preserves R (k a)) -> preserves R (bind m k).
Proof.
  intros Hm Hk s. unfold exec, bind.
  specialize (Hm s). unfold exec in Hm.
  destruct (m s) as [[a | e] s']; simpl in *.
  - eapply R_trans; [exact Hm | apply Hk].
  - exact Hm.
Qed.

Lemma preserves_try_catch {A} (m : M S A) (h : exn -> M S A) :
  preserves R m -> (forall e, preserves R (h e)) -> preserves R (try_catch m h).
Proof.
  intros Hm Hh s. unfold exec, try_catch.
  specialize (Hm s). unfold exec in Hm.
  destruct (m s) as [[a | e] s']; simpl in *.
  - exact Hm.
  - eapply R_trans; [exact Hm | apply Hh].
Qed.

Lemma preserves_try_finally {A} (m : M S A) (f : M S unit) :
  preserves R m -> preserves R f -> preserves R (try_finally m f).
Proof.
  intros Hm Hf s. unfold exec, try_finally.
  specialize (Hm s). unfold exec in Hm.
  destruct (m s) as [r s']; simpl in *.
  specialize (Hf s'). unfold exec in Hf.
  destruct (f s') as [[u | e] s'']; simpl in *;
    eapply R_trans; eauto.
Qed.

Lemma preserves_get_prop (v : value) (k : string) :
  preserves R (@get_prop S v k).
Proof.
  unfold get_prop. destruct (prop v k);
    [apply preserves_ret | apply preserves_throw].
Qed.

Lemma preserves_json_of (b : option value) : preserves R (@json_of S b).
Proof.
  destruct b; [apply preserves_ret | apply preserves_throw].
Qed.

Lemma preserves_for_each_list (f : value -> M S unit) (l : list value) :
  (forall x, preserves R (f x)) -> preserves R (for_each_list f l).
Proof.
  intros Hf. induction l as [| x rest IH]; simpl.
  - apply preserves_ret.
  - apply preserves_bind; [apply Hf | intros _; exact IH].
Qed.

Lemma preserves_for_each (v : value) (f : value -> M S unit) :
  (forall x, preserves R (f x)) -> preserves R (for_each v f).
Proof.
  intros Hf. destruct v; simpl; try apply preserves_throw.
  apply preserves_for_each_list, Hf.
Qed.
End Preserves.

(** The state a [try]/[finally] ends in is the one its [finally] block
    leaves. *)
Lemma exec_try_finally {S A} (m : M S A) (f : M S unit) (s : S) :
  exec (try_finally m f) s = exec f (exec m s).
Proof.
  unfold exec, try_finally.
  destruct (m s) as [r s']; simpl.
  destruct (f s') as [[u | e] s'']; reflexivity.
Qed.

Lemma bind_ok {S A B} (m : M S A) (k : A -> M S B) (s s' : S) (a : A) :
  m s = (Ok a, s') -> bind m k s = k a s'.
Proof. intros H. unfold bind. rewrite H. reflexivity. Qed.

Lemma try_catch_bind_ok {S A B} (m : M S A) (k : A -> M S B) h (s s' : S) (a : A) :
  m s = (Ok a, s') -> try_catch (bind m k) h s = try_catch (k a) h s'.
Proof. intros H. unfold try_catch, bind. rewrite H. reflexivity. Qed.

Lemma try_catch_bind_thrown {S A B} (m : M S A) (k : A -> M S B) h (s s' : S) e :
  m s = (Thrown e, s') -> try_catch (bind m k) h s = h e s'.
Proof. intros H. unfold try_catch, bind. rewrite H. reflexivity. Qed.

Lemma get_prop_ok {S} (v x : value) (k : string) (s : S) :
  prop v k = Some x -> get_prop v k s = (Ok x, s).
Proof. intros H. unfold get_prop. rewrite H. reflexivity. Qed.

(** If [v.k] is defined for one key, [v] is neither [null] nor
    [undefined], and [v.k'] is defined for every key. *)
Lemma prop_total (v x : value) (k k' : string) :
  prop v k = Some x -> exists y, prop v k' = Some y.
Proof. destruct v; simpl; intros H; try discriminate; eauto. Qed.

Lemma same_refl {S X} (proj : S -> X) s : same proj s s.
Proof. reflexivity. Qed.

Lemma same_trans {S X} (proj : S -> X) s1 s2 s3 :
  same proj s1 s2 -> same proj s2 s3 -> same proj s1 s3.
Proof. unfold same. congruence. Qed.

Lemma keeps_refl {S} (I : S -> Prop) s : keeps I s s.
Proof. intros H. exact H. Qed.

Lemma keeps_trans {S} (I : S -> Prop) s1 s2 s3 :
  keeps I s1 s2 -> keeps I s2 s3 -> keeps I s1 s3.
Proof. unfold keeps. auto. Qed.

Create HintDb frame discriminated.
#[local] Hint Resolve same_refl same_trans keeps_refl keeps_trans : frame.

(** Decide a test on closed data. *)
Ltac eval_test :=
  match goal with
  | |- context [is_str ?v ?s] =>
      let b := eval vm_compute in (is_str v s) in
      change (is_str v s) with b; cbv iota
  end.

Ltac frame_side := solve [ intros; eauto with frame ].

(** One step of a frame proof: peel the outermost combinator, or split on
    the test of a conditional. *)
Ltac frame_step :=
  lazymatch goal with
  | |- preserves _ (ret _) => apply preserves_ret; frame_side
  | |- preserves _ (throw _) => apply preserves_throw; frame_side
  | |- preserves _ (gets _) => apply preserves_gets; frame_side
  | |- preserves _ (get_prop _ _) => apply preserves_get_prop; frame_side
  | |- preserves _ (json_of _) => apply preserves_json_of; frame_side
  | |- preserves _ (modify _) =>
      apply preserves_modify; intros ?; unfold same;
      first [ reflexivity | solve [ auto ] | exact (fun H => H) ]
  | |- preserves _ (bind _ _) =>
      apply preserves_bind; [ frame_side .. | | intros ? ]
  | |- preserves _ (try_catch _ _) =>
      apply preserves_try_catch; [ frame_side .. | | intros ? ]
  | |- preserves _ (try_finally _ _) =>
      apply preserves_try_finally; [ frame_side .. | | ]
  | |- preserves _ (for_each _ _) =>
      apply preserves_for_each; [ frame_side .. | intros ? ]
  | |- preserves _ (if ?b then _ else _) => destruct b
  | |- preserves _ (match ?x with _ => _ end) => destruct x
  end.

Ltac frame := repeat frame_step.

(** ** The dashboard *)

Section DashboardFacts.
Import Dashboard.

(** *** What each function leaves alone *)

Lemma fetch_same {X} (proj : page -> X) u m b k :
  (forall p x, proj (set_inflight x p) = proj p) ->
  (forall p x, proj (set_sent x p) = proj p) ->
  preserves (same proj) (fetch u m b k).
Proof.
  intros H1 H2 p. unfold same, exec, fetch, modify; simpl.
  rewrite H1, H2. reflexivity.
Qed.

Lemma console_error_same {X} (proj : page -> X) label e :
  (forall p x, proj (set_console x p) = proj p) ->
  preserves (same proj) (console_error label e).
Proof. intros H. unfold console_error. frame. Qed.

Lemma mostrarNotificacion_same {X} (proj : page -> X) msg tipo :
  (forall p x, proj (set_notificaciones x p) = proj p) ->
  (forall p x, proj (set_next_el x p) = proj p) ->
  (forall p x, proj (set_timers x p) = proj p) ->
  preserves (same proj) (mostrarNotificacion msg tipo).
Proof.
  intros H1 H2 H3. unfold mostrarNotificacion.
  apply preserves_bind; [frame_side | | intros _; frame].
  apply preserves_modify. intros p. unfold same.
  destruct (notificaciones p); auto.
Qed.

Lemma write_button_same {X} (proj : page -> X) btn f :
  (forall p x, proj (set_buttons x p) = proj p) ->
  preserves (same proj) (write_button btn f).
Proof. intros H. unfold write_button, read_button. frame. Qed.

Lemma actualizarUI_same {X} (proj : page -> X) estado :
  (forall p x, proj (set_modo_val x p) = proj p) ->
  (forall p x, proj (set_cpu_val x p) = proj p) ->
  (forall p x, proj (set_latencia_val x p) = proj p) ->
  (forall p x, proj (set_kpi_estado x p) = proj p) ->
  preserves (same proj) (actualizarUI estado).
Proof. intros H1 H2 H3 H4. unfold actualizarUI. frame. Qed.

(** *** Buttons *)

Lemma read_button_ok p btn b :
  buttons p !! btn = Some b -> read_button btn p = (Ok b, p).
Proof.
  intros H. unfold read_button, bind, gets, ret. simpl. rewrite H. reflexivity.
Qed.

Lemma write_button_ok p btn b f :
  buttons p !! btn = Some b ->
  write_button btn f p = (Ok tt, set_buttons (<[btn := f b]> (buttons p)) p).
Proof.
  intros H. unfold write_button. rewrite (bind_ok _ _ _ _ _ (read_button_ok _ _ _ H)).
  reflexivity.
Qed.

(** The [finally] block of both dispatch functions. *)
Lemma restore_button p btn b texto :
  buttons p !! btn = Some b ->
  buttons (exec (write_button btn (fun b => mkButton false (innerHTML b)) ;;;
                 write_button btn (fun b => mkButton (disabled b) texto)) p) !! btn
  = Some (mkButton false texto).
Proof.
  intros H. unfold exec.
  rewrite (bind_ok _ _ _ _ _ (write_button_ok _ _ _ _ H)).
  erewrite write_button_ok by (simpl; apply lookup_insert_eq).
  simpl. apply lookup_insert_eq.
Qed.
End DashboardFacts.

(** Frame steps that know the functions of the dashboard. *)
Ltac dash_step :=
  lazymatch goal with
  | |- preserves _ (Dashboard.fetch _ _ _ _) =>
      apply fetch_same; intros; reflexivity
  | |- preserves _ (Dashboard.console_error _ _) =>
      apply console_error_same; intros; reflexivity
  | |- preserves _ (Dashboard.mostrarNotificacion _ _) =>
      apply mostrarNotificacion_same; intros; reflexivity
  | |- preserves _ (Dashboard.write_button _ _) =>
      apply write_button_same; intros; reflexivity
  | |- preserves _ (Dashboard.actualizarUI _) =>
      apply actualizarUI_same; intros; reflexivity
  | |- _ => frame_step
  end.

Ltac dash_frame :=
  unfold Dashboard.await_fetch, Dashboard.cargarLogs, Dashboard.cargarEstadoActual,
    Dashboard.cerrarModal;
  repeat dash_step.

(** [proj] is the same after running [m] from [q]. *)
Ltac dash_same proj m q H :=
  assert (H : proj (exec m q) = proj q)
    by (assert (Hp : preserves (same proj) m) by dash_frame; exact (Hp q)).

Section DashboardClaims.
Import Dashboard.

Lemma enviarComando_then_restores btn texto r q :
  is_Some (buttons q !! btn) ->
  buttons (exec (enviarComando_then btn texto r) q) !! btn
  = Some (mkButton false texto).
Proof.
  intros [b Hb]. unfold enviarComando_then. rewrite exec_try_finally.
  match goal with
  | |- context [exec ?f (exec ?m q)] => dash_same buttons m q Hq
  end.
  apply restore_button with (b := b). rewrite Hq. exact Hb.
Qed.

Lemma confirmarApagadoFinal_then_restores btn texto r q :
  is_Some (buttons q !! btn) ->
  buttons (exec (confirmarApagadoFinal_then btn texto r) q) !! btn
  = Some (mkButton false texto).
Proof.
  intros [b Hb]. unfold confirmarApagadoFinal_then. rewrite exec_try_finally.
  match goal with
  | |- context [exec ?f (exec ?m q)] => dash_same buttons m q Hq
  end.
  apply restore_button with (b := b). rewrite Hq. exact Hb.
Qed.

Lemma enviarComando_start p modo btn b :
  buttons p !! btn = Some b ->
  enviarComando modo btn p =
  (Ok tt,
   set_inflight (inflight p ++ [KComando btn (innerHTML b)])
     (set_sent (sent p ++ [mkRequest "/api/cambiar_modo" "POST"
                             (Some (VObj [("modo", VStr modo)]))])
        (set_buttons (<[btn := mkButton true (innerHTML b +:+ spinner)]> (buttons p)) p))).
Proof.
  intros H. unfold enviarComando.
  rewrite (bind_ok _ _ _ _ _ (write_button_ok _ _ _ _ H)).
  erewrite bind_ok by (apply read_button_ok; simpl; apply lookup_insert_eq).
  erewrite bind_ok by (apply write_button_ok; simpl; apply lookup_insert_eq).
  unfold fetch, modify. simpl. rewrite insert_insert_eq. reflexivity.
Qed.

Lemma confirmarApagadoFinal_start p btn b :
  btnActual p = Some btn ->
  buttons p !! btn = Some b ->
  confirmarApagadoFinal p =
  (Ok tt,
   set_inflight (inflight p ++ [KApagado btn (innerHTML b)])
     (set_sent (sent p ++ [mkRequest "/api/cambiar_modo" "POST"
                             (Some (VObj [("modo", VStr "OFF");
                                          ("confirmado", VBool true)]))])
        (set_buttons (<[btn := mkButton true (innerHTML b +:+ spinner)]> (buttons p))
           (set_btnActual None (set_modal_confirm "none" p))))).
Proof.
  intros Ha H. unfold confirmarApagadoFinal.
  unfold bind at 1. unfold gets. rewrite Ha.
  unfold cerrarModal. unfold bind at 1. unfold bind at 1. unfold modify at 1 2.
  erewrite bind_ok by (apply write_button_ok; simpl; exact H).
  erewrite bind_ok by (apply read_button_ok; simpl; apply lookup_insert_eq).
  erewrite bind_ok by (apply write_button_ok; simpl; apply lookup_insert_eq).
  unfold fetch, modify. simpl. rewrite insert_insert_eq. reflexivity.
Qed.

(** C3.  A command dispatch, plain or confirmed OFF, disables the control
    and keeps its label for the response; when the response settles, in
    whatever way (success, info, error, rate limit, unreadable body,
    network failure) and in whatever state the page then is, the control
    is enabled again and shows the label it had when the command was
    sent. *)
Theorem dispatch_restores_control (p : page) (btn : nat) (b : button) :
  buttons p !! btn = Some b ->
  (forall modo,
     let p1 := exec (enviarComando modo btn) p in
     inflight p1 = inflight p ++ [KComando btn (innerHTML b)] /\
     buttons p1 !! btn = Some (mkButton true (innerHTML b +:+ spinner)) /\
     forall r q, is_Some (buttons q !! btn) ->
       buttons (exec (resume (KComando btn (innerHTML b)) r) q) !! btn
       = Some (mkButton false (innerHTML b))) /\
  (let p1 := exec confirmarApagadoFinal (exec (confirmarApagado btn) p) in
   inflight p1 = inflight p ++ [KApagado btn (innerHTML b)] /\
   buttons p1 !! btn = Some (mkButton true (innerHTML b +:+ spinner)) /\
   forall r q, is_Some (buttons q !! btn) ->
     buttons (exec (resume (KApagado btn (innerHTML b)) r) q) !! btn
     = Some (mkButton false (innerHTML b))).
Proof.
  intros H. split.
  - intros modo p1. subst p1. unfold exec at 1 2.
    rewrite (enviarComando_start _ _ _ _ H). simpl.
    split; [reflexivity |]. split; [apply lookup_insert_eq |].
    intros r q Hq. apply enviarComando_then_restores, Hq.
  - intros p1. subst p1. unfold exec at 1 3.
    erewrite confirmarApagadoFinal_start by (simpl; eauto). simpl.
    split; [reflexivity |]. split; [apply lookup_insert_eq |].
    intros r q Hq. apply confirmarApagadoFinal_then_restores, Hq.
Qed.

Lemma dispatch_restores_control_witness :
  buttons sample_page !! 1%nat = Some (mkButton false "Cine") /\
  buttons (exec (resume (KComando 1 "Cine") NetworkFailure)
             (exec (enviarComando "CINE" 1) sample_page)) !! 1%nat
  = Some (mkButton false "Cine") /\
  buttons (exec (resume (KApagado 1 "Cine") (Response 500 None)) sample_page) !! 1%nat
  = Some (mkButton false "Cine").
Proof.
  assert (H : buttons sample_page !! 1%nat = Some (mkButton false "Cine"))
    by reflexivity.
  destruct (dispatch_restores_control sample_page 1 (mkButton false "Cine") H)
    as [H1 H2].
  destruct (H1 "CINE") as (_ & _ & H3). destruct H2 as (_ & _ & H4).
  split; [exact H |]. split.
  - apply H3. eexists. reflexivity.
  - apply H4. eexists. reflexivity.
Defined.

(** *** The state panel *)

Lemma actualizarUI_ok p e m c l :
  prop e "modo_actual" = Some m ->
  prop e "carga_cpu" = Some c ->
  prop e "latencia" = Some l ->
  actualizarUI e p =
  (Ok tt,
   set_kpi_estado
     ["kpi"; if is_str m "OFF" then "status-off"
             else if is_str m "STANDBY" then "status-standby"
             else "status-on"]
     (set_latencia_val (text_content l)
        (set_cpu_val (text_content c)
           (set_modo_val (text_content m) p)))).
Proof.
  intros Hm Hc Hl. unfold actualizarUI, get_prop. rewrite Hm, Hc, Hl.
  unfold bind, ret, modify. simpl.
  destruct (is_str m "OFF"); [reflexivity |].
  destruct (is_str m "STANDBY"); reflexivity.
Qed.

(** C6.  A state fetch answered with a 2xx status and the body
    [{status: "success", estado: {modo_actual: "CINE", carga_cpu: 88,
    latencia: 24}}] shows mode CINE, CPU 88, latency 24 and the on-style
    indicator; and for every success body with a state the indicator is
    off-style for mode OFF, standby-style for STANDBY and on-style for
    anything else. *)
Theorem state_fetch_renders_state (p : page) (status : Z) :
  res_ok status = true ->
  displayed (exec (cargarEstadoActual_then (Response status (Some (VObj [
      ("status", VStr "success");
      ("estado", VObj [("modo_actual", VStr "CINE");
                       ("carga_cpu", VNum 88);
                       ("latencia", VNum 24)])])))) p)
  = ("CINE", "88", "24", ["kpi"; "status-on"]) /\
  forall d s e m,
    prop d "status" = Some s -> is_str s "success" = true ->
    prop d "estado" = Some e -> prop e "modo_actual" = Some m ->
    let p' := exec (cargarEstadoActual_then (Response status (Some d))) p in
    modo_val p' = text_content m /\
    (m = VStr "OFF" -> kpi_estado p' = ["kpi"; "status-off"]) /\
    (m = VStr "STANDBY" -> kpi_estado p' = ["kpi"; "status-standby"]) /\
    (m <> VStr "OFF" -> m <> VStr "STANDBY" -> kpi_estado p' = ["kpi"; "status-on"]).
Proof.
  intros Hok. split.
  - unfold exec, cargarEstadoActual_then, try_catch, bind, await_fetch, ret; simpl.
    rewrite Hok. reflexivity.
  - intros d s e m Hs Hsucc He Hm p'. subst p'.
    destruct (prop_total _ _ _ "carga_cpu" Hm) as [c Hc].
    destruct (prop_total _ _ _ "latencia" Hm) as [l Hl].
    unfold exec, cargarEstadoActual_then.
    erewrite try_catch_bind_ok by reflexivity. cbn [fst snd]. rewrite Hok. cbn [negb].
    erewrite try_catch_bind_ok by reflexivity.
    erewrite try_catch_bind_ok by (apply get_prop_ok, Hs). rewrite Hsucc.
    erewrite try_catch_bind_ok by (apply get_prop_ok, He).
    unfold try_catch. rewrite (actualizarUI_ok _ _ _ _ _ Hm Hc Hl). simpl.
    split; [reflexivity |]. split; [| split].
    + intros ->. reflexivity.
    + intros ->. reflexivity.
    + intros H1 H2.
      assert (is_str m "OFF" = false) as ->.
      { destruct m; simpl; try reflexivity.
        destruct (String.eqb_spec s0 "OFF"); [subst; congruence | reflexivity]. }
      assert (is_str m "STANDBY" = false) as ->.
      { destruct m; simpl; try reflexivity.
        destruct (String.eqb_spec s0 "STANDBY"); [subst; congruence | reflexivity]. }
      reflexivity.
Qed.

Lemma state_fetch_renders_state_witness :
  res_ok 200 = true /\
  displayed (exec (cargarEstadoActual_then (Response 200 (Some sample_success)))
               sample_page)
  = ("CINE", "88", "24", ["kpi"; "status-on"]) /\
  kpi_estado (exec (cargarEstadoActual_then (Response 200 (Some (VObj [
      ("status", VStr "success");
      ("estado", VObj [("modo_actual", VStr "OFF")])])))) sample_page)
  = ["kpi"; "status-off"].
Proof.
  destruct (state_fetch_renders_state sample_page 200 eq_refl) as [_ H].
  split; [reflexivity |]. split; [reflexivity |].
  apply (H (VObj [("status", VStr "success");
                  ("estado", VObj [("modo_actual", VStr "OFF")])])
           (VStr "success") (VObj [("modo_actual", VStr "OFF")]) (VStr "OFF")
           eq_refl eq_refl eq_refl eq_refl).
  reflexivity.
Defined.

(** *** Notices *)

Lemma mostrarNotificacion_ok p msg tipo :
  mostrarNotificacion msg tipo p =
  (Ok tt,
   set_timers (timers p ++ [SlideOut (next_el p)])
     (set_notificaciones
        (tail (notificaciones p) ++
         [mkNotif (next_el p) ("notificacion " +:+ tipo) (text_content msg) EmptyString])
        (set_next_el (S (next_el p)) p))).
Proof.
  unfold mostrarNotificacion, bind, modify, gets. simpl.
  destruct (notificaciones p) eqn:E; simpl; rewrite ?E; reflexivity.
Qed.

(** The plain dispatch on a rate-limit response whose body parses: the
    rate-limit notice, and the state panel as it was. *)
Lemma enviarComando_rate_limited (p : page) (btn : nat) (texto : string) (d : value) :
  let p' := exec (enviarComando_then btn texto (Response 429 (Some d))) p in
  displayed p' = displayed p /\
  last (notificaciones p')
  = Some (mkNotif (next_el p) "notificacion error"
            "Demasiadas solicitudes. Espere un momento." EmptyString).
Proof.
  intros p'. subst p'. unfold enviarComando_then. rewrite exec_try_finally.
  match goal with
  | |- context [exec ?f (exec ?m p)] =>
      dash_same displayed f (exec m p) Hd;
      dash_same notificaciones f (exec m p) Hn
  end.
  rewrite Hd, Hn. unfold exec.
  erewrite try_catch_bind_ok by reflexivity.
  erewrite try_catch_bind_ok by reflexivity.
  cbn [fst snd Z.eqb Pos.eqb]. unfold try_catch.
  rewrite mostrarNotificacion_ok. simpl. split; [reflexivity | apply last_snoc].
Qed.

(** The plain dispatch when its [try] block raises before any test on
    the body: the fetch rejects, the body does not parse (whatever the
    HTTP status, 429 included, since [res.json()] comes first), or the
    body is [null].  The connection notice is shown and the state panel is
    as it was. *)
Lemma enviarComando_then_caught (p : page) (btn : nat) (texto : string)
    (r : fetch_result) :
  r = NetworkFailure \/
  (exists status, r = Response status None) \/
  (exists status d, r = Response status (Some d) /\ status <> 429 /\
                    prop d "status" = None) ->
  let p' := exec (enviarComando_then btn texto r) p in
  displayed p' = displayed p /\
  last (notificaciones p')
  = Some (mkNotif (next_el p) "notificacion error"
            "Error de conexión con el servidor" EmptyString).
Proof.
  intros Hr p'. subst p'. unfold enviarComando_then. rewrite exec_try_finally.
  match goal with
  | |- context [exec ?f (exec ?m p)] =>
      dash_same displayed f (exec m p) Hd;
      dash_same notificaciones f (exec m p) Hn
  end.
  rewrite Hd, Hn. clear Hd Hn. unfold exec.
  destruct Hr as [-> | [[status ->] | (status & d & -> & Hst & Hs)]].
  - erewrite try_catch_bind_thrown by reflexivity.
    erewrite bind_ok by reflexivity.
    rewrite mostrarNotificacion_ok. simpl. split; [reflexivity | apply last_snoc].
  - erewrite try_catch_bind_ok by reflexivity.
    erewrite try_catch_bind_thrown by reflexivity.
    erewrite bind_ok by reflexivity.
    rewrite mostrarNotificacion_ok. simpl. split; [reflexivity | apply last_snoc].
  - apply Z.eqb_neq in Hst.
    erewrite try_catch_bind_ok by reflexivity.
    erewrite try_catch_bind_ok by reflexivity.
    cbn [fst snd]. rewrite Hst.
    erewrite try_catch_bind_thrown by (unfold get_prop; rewrite Hs; reflexivity).
    erewrite bind_ok by reflexivity.
    rewrite mostrarNotificacion_ok. simpl. split; [reflexivity | apply last_snoc].
Qed.

(** C1, at the confirmed OFF dispatch.  Its continuation has no branch
    for HTTP 429: a rate-limit response with an error body is shown with
    the message of the body, where the plain dispatch shows the
    rate-limit notice; and a 429 response whose body says success is
    rendered. *)
Theorem confirmed_off_ignores_rate_limit (p : page) (btn : nat) (texto : string) :
  let r := Response 429 (Some (VObj [("status", VStr "error");
                                     ("msg", VStr "Too Many Requests")])) in
  last (notificaciones (exec (confirmarApagadoFinal_then btn texto r) p))
  = Some (mkNotif (next_el p) "notificacion error" "Too Many Requests" EmptyString) /\
  last (notificaciones (exec (enviarComando_then btn texto r) p))
  = Some (mkNotif (next_el p) "notificacion error"
            "Demasiadas solicitudes. Espere un momento." EmptyString) /\
  displayed (exec (confirmarApagadoFinal_then btn texto
                     (Response 429 (Some sample_success))) p)
  = ("CINE", "88", "24", ["kpi"; "status-on"]).
Proof.
  intros r. subst r. split; [| split].
  - unfold confirmarApagadoFinal_then. rewrite exec_try_finally.
    match goal with
    | |- context [exec ?f (exec ?m p)] => dash_same notificaciones f (exec m p) Hn
    end.
    rewrite Hn. unfold exec.
    erewrite try_catch_bind_ok by reflexivity.
    erewrite try_catch_bind_ok by reflexivity.
    erewrite try_catch_bind_ok by reflexivity.
    eval_test.
    erewrite try_catch_bind_ok by reflexivity.
    unfold try_catch. rewrite mostrarNotificacion_ok. simpl. apply last_snoc.
  - apply enviarComando_rate_limited.
  - unfold confirmarApagadoFinal_then. rewrite exec_try_finally.
    match goal with
    | |- context [exec ?f (exec ?m p)] => dash_same displayed f (exec m p) Hd
    end.
    rewrite Hd. unfold exec.
    erewrite try_catch_bind_ok by reflexivity.
    erewrite try_catch_bind_ok by reflexivity.
    erewrite try_catch_bind_ok by reflexivity.
    eval_test.
    erewrite try_catch_bind_ok by reflexivity.
    erewrite try_catch_bind_ok by (apply actualizarUI_ok; reflexivity).
    match goal with
    | |- displayed (snd (?m ?q)) = _ => dash_same displayed m q Hq
    end.
    unfold exec in Hq. rewrite Hq. reflexivity.
Qed.

(** C4, as stated, fails twice on the plain dispatch: a body whose
    status is success is not rendered when the HTTP status is 429, nor
    when it carries no state. *)
Lemma success_body_not_always_rendered :
  prop sample_success "status" = Some (VStr "success") /\
  displayed (exec (enviarComando_then 1 "Cine" (Response 429 (Some sample_success)))
               sample_page) = displayed sample_page /\
  displayed sample_page <> ("CINE", "88", "24", ["kpi"; "status-on"]) /\
  displayed (exec (enviarComando_then 1 "Cine"
                     (Response 200 (Some (VObj [("status", VStr "success");
                                                ("msg", VStr "ok")]))))
               sample_page) = displayed sample_page.
Proof.
  split; [reflexivity |]. split; [vm_compute; reflexivity |].
  split; [vm_compute; discriminate | vm_compute; reflexivity].
Qed.

(** The plain dispatch on a response that is not a rate-limit response
    and whose body has a status: a success body with a state is rendered
    and announced with the message of the body; any other status leaves
    the state panel as it was and shows the message, styled info for
    status info and error otherwise. *)
Lemma enviarComando_then_renders
    (p : page) (btn : nat) (texto : string) (status : Z) (d s msg : value) :
  status <> 429 ->
  prop d "status" = Some s ->
  prop d "msg" = Some msg ->
  let p' := exec (enviarComando_then btn texto (Response status (Some d))) p in
  (is_str s "success" = true ->
   forall e m c l,
     prop d "estado" = Some e ->
     prop e "modo_actual" = Some m ->
     prop e "carga_cpu" = Some c ->
     prop e "latencia" = Some l ->
     modo_val p' = text_content m /\
     cpu_val p' = text_content c /\
     latencia_val p' = text_content l /\
     last (notificaciones p')
     = Some (mkNotif (next_el p) "notificacion success" (text_content msg) EmptyString)) /\
  (is_str s "success" = false ->
   displayed p' = displayed p /\
   last (notificaciones p')
   = Some (mkNotif (next_el p)
             (if is_str s "info" then "notificacion info" else "notificacion error")
             (text_content msg) EmptyString)).
Proof.
  intros Hst Hs Hmsg p'. subst p'. apply Z.eqb_neq in Hst.
  unfold enviarComando_then. rewrite exec_try_finally.
  match goal with
  | |- context [exec ?f (exec ?m p)] =>
      dash_same displayed f (exec m p) Hd;
      dash_same modo_val f (exec m p) Hd1;
      dash_same cpu_val f (exec m p) Hd2;
      dash_same latencia_val f (exec m p) Hd3;
      dash_same notificaciones f (exec m p) Hn
  end.
  rewrite Hd, Hd1, Hd2, Hd3, Hn. clear Hd Hd1 Hd2 Hd3 Hn.
  unfold exec.
  erewrite try_catch_bind_ok by reflexivity.
  erewrite try_catch_bind_ok by reflexivity.
  cbn [fst snd]. rewrite Hst.
  erewrite try_catch_bind_ok by (apply get_prop_ok, Hs).
  split.
  - intros Hsucc e m c l He Hm Hc Hl. rewrite Hsucc.
    erewrite try_catch_bind_ok by (apply get_prop_ok, He).
    erewrite try_catch_bind_ok by (apply actualizarUI_ok; eassumption).
    erewrite try_catch_bind_ok by (apply get_prop_ok, Hmsg).
    erewrite try_catch_bind_ok by (apply mostrarNotificacion_ok).
    unfold try_catch, cargarLogs, fetch, modify. simpl.
    repeat split; try reflexivity. apply last_snoc.
  - intros Hfail. rewrite Hfail.
    erewrite try_catch_bind_ok by (apply get_prop_ok, Hs).
    destruct (is_str s "info").
    + erewrite try_catch_bind_ok by (apply get_prop_ok, Hmsg).
      unfold try_catch. rewrite mostrarNotificacion_ok. simpl.
      split; [reflexivity | apply last_snoc].
    + erewrite try_catch_bind_ok by (apply get_prop_ok, Hmsg).
      unfold try_catch. rewrite mostrarNotificacion_ok. simpl.
      split; [reflexivity | apply last_snoc].
Qed.

(** C4, amended.  For every mode-change response of the plain dispatch,
    the state panel changes only if the HTTP status is not 429 and the
    status field of the body is success; for a response that is not 429,
    when the status is success and the body carries a state, the displayed
    mode, CPU and latency are exactly those the server returned, and when
    the status is info, error or anything else, a notice is shown and the
    displayed state is unchanged. *)
Theorem mode_change_renders_only_success
    (p : page) (btn : nat) (texto : string) (r : fetch_result) :
  let p' := exec (enviarComando_then btn texto r) p in
  (displayed p' <> displayed p ->
   exists status d,
     r = Response status (Some d) /\ status <> 429 /\
     prop d "status" = Some (VStr "success")) /\
  (forall status d s,
     r = Response status (Some d) -> status <> 429 ->
     prop d "status" = Some s ->
     (is_str s "success" = true ->
      forall e m c l,
        prop d "estado" = Some e ->
        prop e "modo_actual" = Some m ->
        prop e "carga_cpu" = Some c ->
        prop e "latencia" = Some l ->
        modo_val p' = text_content m /\
        cpu_val p' = text_content c /\
        latencia_val p' = text_content l) /\
     (is_str s "success" = false ->
      displayed p' = displayed p /\
      exists n, last (notificaciones p') = Some n /\
                className n = (if is_str s "info" then "notificacion info"
                               else "notificacion error") /\
                textContent n = text_content (field d "msg"))).
Proof.
  intros p'. subst p'.
  assert (Hmsg : forall d s, prop d "status" = Some s ->
                   prop d "msg" = Some (field d "msg")).
  { intros d s Hs. unfold field.
    destruct (prop_total _ _ _ "msg" Hs) as [x ->]. reflexivity. }
  split.
  - intros Hchg.
    destruct r as [| status [d |]].
    + exfalso. apply Hchg. apply enviarComando_then_caught. left. reflexivity.
    + destruct (Z.eq_dec status 429) as [-> | Hst].
      { exfalso. apply Hchg. apply enviarComando_rate_limited. }
      destruct (prop d "status") as [s |] eqn:Hs.
      * destruct (is_str s "success") eqn:Hsucc.
        -- exists status, d. split; [reflexivity |]. split; [exact Hst |].
           destruct s; simpl in Hsucc; try discriminate.
           apply String.eqb_eq in Hsucc. subst. exact Hs.
        -- exfalso. apply Hchg.
           apply (enviarComando_then_renders p btn texto status d s _
                    Hst Hs (Hmsg _ _ Hs)), Hsucc.
      * exfalso. apply Hchg. apply enviarComando_then_caught.
        right. right. exists status, d. auto.
    + exfalso. apply Hchg. apply enviarComando_then_caught.
      right. left. exists status. reflexivity.
  - intros status d s -> Hst Hs.
    destruct (enviarComando_then_renders p btn texto status d s _
                Hst Hs (Hmsg _ _ Hs)) as [H1 H2].
    split.
    + intros Hsucc e m c l He Hm Hc Hl.
      destruct (H1 Hsucc e m c l He Hm Hc Hl) as (Ha & Hb & Hc' & _). auto.
    + intros Hfail. destruct (H2 Hfail) as [Ha Hb].
      split; [exact Ha |]. eexists. split; [exact Hb |]. split; reflexivity.
Qed.

Lemma mode_change_renders_only_success_witness :
  200 <> 429 /\
  modo_val (exec (enviarComando_then 1 "Cine" (Response 200 (Some sample_success)))
              sample_page) = "CINE" /\
  displayed (exec (enviarComando_then 1 "Cine"
                     (Response 200 (Some (VObj [("status", VStr "info");
                                                ("msg", VStr "Sin cambios")]))))
               sample_page) = displayed sample_page.
Proof.
  assert (H : 200 <> 429) by lia.
  split; [exact H |]. split.
  - destruct (mode_change_renders_only_success sample_page 1 "Cine"
                (Response 200 (Some sample_success))) as [_ Hr].
    destruct (Hr 200 sample_success (VStr "success") eq_refl H eq_refl) as [Hs _].
    destruct (Hs eq_refl
                (VObj [("modo_actual", VStr "CINE"); ("carga_cpu", VNum 88);
                       ("latencia", VNum 24)])
                (VStr "CINE") (VNum 88) (VNum 24) eq_refl eq_refl eq_refl eq_refl)
      as [Hm _].
    exact Hm.
  - destruct (mode_change_renders_only_success sample_page 1 "Cine"
                (Response 200 (Some (VObj [("status", VStr "info");
                                           ("msg", VStr "Sin cambios")]))))
      as [_ Hr].
    destruct (Hr 200 _ (VStr "info") eq_refl H eq_refl) as [_ Hi].
    apply (Hi eq_refl).
Defined.

(** C5.  With no pending control recorded, the confirm action of the OFF
    modal completes without an exception, sends nothing, leaves no
    continuation behind, touches no control, and closes the modal. *)
Theorem confirm_without_pending_control (p : page) :
  btnActual p = None ->
  confirmarApagadoFinal p = (Ok tt, set_btnActual None (set_modal_confirm "none" p)) /\
  let p' := exec confirmarApagadoFinal p in
  sent p' = sent p /\ inflight p' = inflight p /\ buttons p' = buttons p /\
  displayed p' = displayed p /\ notificaciones p' = notificaciones p /\
  modal_confirm p' = "none".
Proof.
  intros H.
  assert (E : confirmarApagadoFinal p
              = (Ok tt, set_btnActual None (set_modal_confirm "none" p))).
  { unfold confirmarApagadoFinal, bind, gets. simpl. rewrite H. reflexivity. }
  split; [exact E |]. unfold exec. rewrite E. simpl. repeat split.
Qed.

Lemma confirm_without_pending_control_witness :
  btnActual sample_page = None /\
  outcome confirmarApagadoFinal sample_page = Ok tt /\
  sent (exec confirmarApagadoFinal sample_page) = [].
Proof.
  destruct (confirm_without_pending_control sample_page eq_refl) as [E (Hs & _)].
  split; [reflexivity |]. split.
  - unfold outcome. rewrite E. reflexivity.
  - exact Hs.
Defined.

(** *** The log viewer *)

Lemma append_assoc (a b c : string) : (a +:+ b) +:+ c = a +:+ (b +:+ c).
Proof.
  induction a as [| x a IH]; [reflexivity |].
  change (String x ((a +:+ b) +:+ c) = String x (a +:+ (b +:+ c))).
  f_equal. exact IH.
Qed.

Lemma append_empty_r (a : string) : a +:+ EmptyString = a.
Proof.
  induction a as [| x a IH]; [reflexivity |].
  change (String x (a +:+ EmptyString) = String x a).
  f_equal. exact IH.
Qed.

Lemma rows_app (l1 l2 : list string) : rows (l1 ++ l2) = rows l1 +:+ rows l2.
Proof.
  induction l1 as [| x l1 IH]; simpl; [reflexivity |].
  rewrite IH, append_assoc. reflexivity.
Qed.

Lemma entry_prop (log : value) (k : string) :
  is_entry log -> prop log k = Some (field log k).
Proof.
  intros [H1 H2]. unfold field.
  destruct log; simpl; try reflexivity; congruence.
Qed.

Lemma append_log_ok (log : value) (q : page) :
  is_entry log ->
  append_log log q = (Ok tt, set_log_box (log_box q +:+ rendered_log log) q).
Proof.
  intros H. unfold append_log, get_prop.
  rewrite !(entry_prop _ _ H). reflexivity.
Qed.

Lemma for_each_append_log (logs : list value) (q : page) :
  Forall is_entry logs ->
  for_each_list append_log logs q
  = (Ok tt, set_log_box (log_box q +:+ rows (map rendered_log logs)) q).
Proof.
  intros H. revert q. induction H as [| log logs Hlog _ IH]; intros q.
  - simpl. rewrite append_empty_r. destruct q; reflexivity.
  - simpl. rewrite (bind_ok _ _ _ _ _ (append_log_ok _ _ Hlog)).
    rewrite IH. simpl. rewrite append_assoc. reflexivity.
Qed.



(** C9.  A log refresh that fails (the fetch rejects, the status is not
    2xx, the body does not parse, or its status is not success) leaves
    the log box and its scroll position as they were; the log box is
    only ever rewritten by a 2xx response whose body says success. *)
Theorem failed_log_refresh_keeps_list (p : page) (r : fetch_result) :
  let p' := exec (cargarLogs_then r) p in
  (log_refresh_failed r ->
   log_box p' = log_box p /\ log_scrollTop p' = log_scrollTop p) /\
  (log_box p' <> log_box p ->
   exists status d,
     r = Response status (Some d) /\ res_ok status = true /\
     prop d "status" = Some (VStr "success")).
Proof.
  intros p'. subst p'.
  assert (Hkeep : log_refresh_failed r ->
            log_box (exec (cargarLogs_then r) p) = log_box p /\
            log_scrollTop (exec (cargarLogs_then r) p) = log_scrollTop p).
  { unfold exec, cargarLogs_then, try_catch, bind, await_fetch, json_of, get_prop.
    destruct r as [| status [d |]]; simpl.
    - intros _. split; reflexivity.
    - destruct (res_ok status); simpl; [| intros _; split; reflexivity].
      intros [Hf | Hf]; [discriminate |].
      destruct (prop d "status") as [s |]; simpl; [| split; reflexivity].
      rewrite (Hf s eq_refl). simpl. split; reflexivity.
    - destruct (res_ok status); simpl; intros _; split; reflexivity. }
  split; [exact Hkeep |].
  intros Hchg.
  destruct r as [| status [d |]].
  - exfalso. apply Hchg. apply Hkeep. exact I.
  - destruct (res_ok status) eqn:Hok.
    + destruct (prop d "status") as [s |] eqn:Hs.
      * destruct (is_str s "success") eqn:Hsucc.
        -- exists status, d. split; [reflexivity |]. split; [exact Hok |].
           destruct s; simpl in Hsucc; try discriminate.
           apply String.eqb_eq in Hsucc. subst. exact Hs.
        -- exfalso. apply Hchg. apply Hkeep. simpl. right.
           intros s' Hs'. congruence.
      * exfalso. apply Hchg. apply Hkeep. simpl. right.
        intros s' Hs'. congruence.
    + exfalso. apply Hchg. apply Hkeep. simpl. left. exact Hok.
  - exfalso. apply Hchg. apply Hkeep. simpl. right. exact I.
Qed.

Lemma failed_log_refresh_keeps_list_witness :
  log_refresh_failed (Response 503 None) /\
  log_box (exec (cargarLogs_then (Response 503 None)) sample_page)
  = log_box sample_page.
Proof.
  assert (H : log_refresh_failed (Response 503 None)) by (left; reflexivity).
  split; [exact H |].
  apply (proj1 (failed_log_refresh_keeps_list sample_page (Response 503 None))), H.
Defined.

(** *** Notifications never stack *)

Lemma mostrarNotificacion_one p msg tipo :
  at_most_one p ->
  notificaciones (exec (mostrarNotificacion msg tipo) p)
  = [mkNotif (next_el p) ("notificacion " +:+ tipo) (text_content msg) EmptyString].
Proof.
  unfold at_most_one, exec. rewrite mostrarNotificacion_ok. simpl.
  destruct (notificaciones p) as [| x [| y l]]; simpl; intros H;
    [reflexivity | reflexivity | lia].
Qed.

Lemma mostrarNotificacion_keeps msg tipo :
  preserves (keeps at_most_one) (mostrarNotificacion msg tipo).
Proof.
  intros p H. unfold at_most_one.
  rewrite (mostrarNotificacion_one _ _ _ H). simpl. lia.
Qed.

Lemma fire_keeps t : preserves (keeps at_most_one) (fire t).
Proof.
  intros p. unfold keeps, at_most_one, exec.
  destruct t as [n | n]; simpl.
  - rewrite length_map. auto.
  - intros H. etransitivity; [apply filter_length_le | exact H].
Qed.

Ltac inv_frame :=
  unfold resume, cargarEstadoActual_then, cargarLogs_then, enviarComando_then,
    confirmarApagadoFinal_then, confirmarApagadoFinal, confirmarApagado,
    enviarComando, cerrarModal, cargarEstadoActual, cargarLogs, actualizarUI,
    append_log, write_button, read_button, fetch, console_error, await_fetch;
  repeat lazymatch goal with
    | |- preserves _ (mostrarNotificacion _ _) => apply mostrarNotificacion_keeps
    | |- preserves _ (fire _) => apply fire_keeps
    | |- _ => frame_step
    end.

Lemma handle_keeps ev : preserves (keeps at_most_one) (handle ev).
Proof. destruct ev; unfold handle; inv_frame. Qed.


End DashboardClaims.

(** ** The admin panel *)

Section AdminClaims.
Import Admin.

(** C2, on the code.  The request [guardarUsuario] sends is the same
    whatever the id field of the form holds: its body has the five other
    fields and no id, also after [mostrarModalUsuario] has opened the
    form on user 7. *)
Theorem guardarUsuario_ignores_id (p : page) (id : string) :
  let f := form_usuario p in
  let datos := VObj [("username", VStr (usuario_username f));
                     ("password", VStr (usuario_password f));
                     ("nombre_completo", VStr (usuario_nombre f));
                     ("email", VStr (usuario_email f));
                     ("rol", VStr (usuario_rol f))] in
  sent (exec guardarUsuario (set_form_usuario (set_usuario_id id f) p))
  = sent p ++ [mkRequest "/api/admin/usuarios" "POST" (Some datos)] /\
  prop datos "id" = Some VUndef /\
  usuario_id (form_usuario (exec (mostrarModalUsuario (VNum 7)) p)) = "7".
Proof. intros f datos. repeat split. Qed.

(** C8.  Deactivating a user and purging the logs each show their prompt
    first; the DELETE request, respectively the cleanup POST, leaves
    exactly when the prompt is confirmed, and on a declined prompt
    nothing is sent and nothing is left pending. *)
Theorem destructive_actions_wait_for_confirmation (p : page) (answer : bool) :
  (forall userId,
     let p' := exec (confirmarEliminarUsuario userId answer) p in
     dialogs p' = dialogs p ++ ["¿Está seguro que desea desactivar este usuario?"] /\
     sent p' = (if answer
                then sent p ++ [mkRequest ("/api/admin/usuarios/" +:+ to_string userId)
                                  "DELETE" None]
                else sent p) /\
     inflight p' = (if answer then inflight p ++ [KEliminar] else inflight p)) /\
  (let p' := exec (ejecutarLimpiezaLogs answer) p in
   dialogs p' = dialogs p ++ ["Se eliminarán todos los logs anteriores a " +:+
                              dias_mantener p +:+ " días. ¿Continuar?"] /\
   sent p' = (if answer
              then sent p ++ [mkRequest "/api/admin/logs/limpiar" "POST"
                                (Some (VObj [("dias", parseInt (dias_mantener p))]))]
              else sent p) /\
   inflight p' = (if answer then inflight p ++ [KLimpiar] else inflight p)).
Proof.
  split.
  - intros userId p'. subst p'. destruct answer; repeat split.
  - intros p'. subst p'. destruct answer; repeat split.
Qed.
End AdminClaims.

(** * Further properties *)

(** ** Frame reasoning that keeps the path

    The variants below remember what a read returned, so that a branch
    the response cannot take is closed by contradiction. *)

Section PreservesPath.
Context {S : Type} (R : S -> S -> Prop).
Hypothesis R_refl : forall s, R s s.

Lemma preserves_bind_get_prop {B} (v : value) (k : string) (f : value -> M S B) :
  (forall x, prop v k = Some x -> preserves R (f x)) ->
  preserves R (bind (get_prop v k) f).
Proof.
  intros H s. unfold exec, bind, get_prop.
  destruct (prop v k) as [x |] eqn:E; simpl.
  - apply (H x eq_refl s).
  - apply R_refl.
Qed.

Lemma preserves_bind_json_of {B} (b : option value) (f : value -> M S B) :
  (forall d, b = Some d -> preserves R (f d)) ->
  preserves R (bind (json_of b) f).
Proof.
  intros H s. unfold exec, bind, json_of.
  destruct b as [d |]; simpl.
  - apply (H d eq_refl s).
  - apply R_refl.
Qed.
End PreservesPath.

Lemma dash_preserves_bind_await {B} (R : Dashboard.page -> Dashboard.page -> Prop)
    (r : fetch_result) (f : Z * option value -> Dashboard.DOM B) :
  (forall s, R s s) ->
  (forall status b, r = Response status b -> preserves R (f (status, b))) ->
  preserves R (bind (Dashboard.await_fetch r) f).
Proof.
  intros Hr H s. unfold exec, bind, Dashboard.await_fetch.
  destruct r as [| status b]; simpl.
  - apply Hr.
  - apply (H status b eq_refl s).
Qed.

(** One step of a path-keeping frame proof on the dashboard. *)
Ltac dash_path_step :=
  lazymatch goal with
  | |- preserves _ (bind (get_prop _ _) _) =>
      apply preserves_bind_get_prop; [ frame_side | intros ? ? ]
  | |- preserves _ (bind (json_of _) _) =>
      apply preserves_bind_json_of; [ frame_side | intros ? ? ]
  | |- preserves _ (bind (Dashboard.await_fetch _) _) =>
      apply dash_preserves_bind_await; [ frame_side | intros ? ? ? ]; cbn [fst snd]
  | |- preserves _ (if ?b then _ else _) => destruct b eqn:?
  | |- _ => dash_step
  end.

(** As [dash_path_step], with the side conditions of the frame lemmas
    taken from the context. *)
Ltac dash_hyp_step :=
  lazymatch goal with
  | |- preserves _ (Dashboard.fetch _ _ _ _) =>
      apply fetch_same; solve [ auto ]
  | |- preserves _ (Dashboard.console_error _ _) =>
      apply console_error_same; solve [ auto ]
  | |- preserves _ (Dashboard.mostrarNotificacion _ _) =>
      apply mostrarNotificacion_same; solve [ auto ]
  | |- preserves _ (Dashboard.write_button _ _) =>
      first [ apply write_button_same; solve [ auto ] | solve [ auto ] ]
  | |- preserves _ (Dashboard.actualizarUI _) =>
      apply actualizarUI_same; solve [ auto ]
  | |- _ => dash_path_step
  end.

(** ** The dashboard, further *)

Section DashboardMore.
Import Dashboard DashboardExtra.

(** *** The state fetch *)

Lemma estado_catch (p : page) (e : exn) :
  (console_error "Error:" e ;;;
   mostrarNotificacion (VStr "Error al cargar estado del sistema") "error") p
  = (Ok tt,
     set_timers (timers p ++ [SlideOut (next_el p)])
       (set_notificaciones
          (tail (notificaciones p) ++
           [mkNotif (next_el p) "notificacion error"
              "Error al cargar estado del sistema" EmptyString])
          (set_next_el (S (next_el p))
             (set_console (console p ++ [("Error:", e)]) p)))).
Proof.
  erewrite bind_ok by reflexivity. rewrite mostrarNotificacion_ok. reflexivity.
Qed.



(** X2.  A state fetch answered 2xx with a body whose status is not
    success changes nothing at all and tells the user nothing: no notice,
    no console entry. *)
Theorem state_fetch_other_status_silent
    (p : page) (status : Z) (d s : value) :
  res_ok status = true ->
  prop d "status" = Some s ->
  is_str s "success" = false ->
  cargarEstadoActual_then (Response status (Some d)) p = (Ok tt, p).
Proof.
  intros Hok Hs Hf. unfold cargarEstadoActual_then.
  erewrite try_catch_bind_ok by reflexivity. cbn [fst snd]. rewrite Hok. cbn [negb].
  erewrite try_catch_bind_ok by reflexivity.
  erewrite try_catch_bind_ok by (apply get_prop_ok, Hs). rewrite Hf.
  reflexivity.
Qed.

Lemma state_fetch_other_status_silent_witness :
  cargarEstadoActual_then
    (Response 200 (Some (VObj [("status", VStr "error"); ("msg", VStr "no")])))
    sample_page
  = (Ok tt, sample_page).
Proof.
  apply (state_fetch_other_status_silent sample_page 200 _ (VStr "error"));
    reflexivity.
Defined.

(** *** The confirmation guard *)

(** X3.  Cancelling the OFF prompt, by the cancel action or by a click on
    the backdrop, sends nothing, touches no control and forgets the
    pending control, so that a later confirm sends nothing either; a
    click elsewhere leaves the prompt pending. *)
Theorem cancel_sends_nothing (p : page) (btn : nat) :
  let pending := exec (confirmarApagado btn) p in
  let cancelled := step pending (EvWindowClick true) in
  cancelled = exec cerrarModal pending /\
  sent cancelled = sent p /\ inflight cancelled = inflight p /\
  buttons cancelled = buttons p /\
  btnActual cancelled = None /\ modal_confirm cancelled = "none" /\
  sent (exec confirmarApagadoFinal cancelled) = sent p /\
  step pending (EvWindowClick false) = pending /\
  btnActual pending = Some btn.
Proof. repeat split. Qed.

Lemma confirmarApagadoFinal_idle (p : page) :
  btnActual p = None ->
  confirmarApagadoFinal p = (Ok tt, set_btnActual None (set_modal_confirm "none" p)).
Proof.
  intros H. unfold confirmarApagadoFinal, bind, gets. simpl. rewrite H. reflexivity.
Qed.

(** X4.  Confirming twice sends the OFF command once: the first confirm
    consumes the pending control, the second only closes the prompt. *)
Theorem confirm_twice_sends_once (p : page) (btn : nat) (b : button) :
  buttons p !! btn = Some b ->
  let once := exec confirmarApagadoFinal (exec (confirmarApagado btn) p) in
  let twice := exec confirmarApagadoFinal once in
  sent once = sent p ++ [off_request] /\
  sent twice = sent once /\
  inflight twice = inflight p ++ [KApagado btn (innerHTML b)] /\
  buttons twice = buttons once.
Proof.
  intros H once twice.
  assert (E1 : once
               = set_inflight (inflight p ++ [KApagado btn (innerHTML b)])
                   (set_sent (sent p ++ [off_request])
                      (set_buttons
                         (<[btn := mkButton true (innerHTML b +:+ spinner)]> (buttons p))
                         (set_btnActual None (set_modal_confirm "none" p))))).
  { subst once. unfold exec at 1.
    erewrite confirmarApagadoFinal_start by (simpl; eauto). reflexivity. }
  assert (E2 : twice = set_btnActual None (set_modal_confirm "none" once)).
  { subst twice. unfold exec.
    rewrite confirmarApagadoFinal_idle by (rewrite E1; reflexivity). reflexivity. }
  rewrite E2, E1. repeat split.
Qed.

Lemma confirm_twice_sends_once_witness :
  buttons sample_page !! 2%nat = Some (mkButton false "Apagar") /\
  sent (exec confirmarApagadoFinal
          (exec confirmarApagadoFinal (exec (confirmarApagado 2) sample_page)))
  = [off_request].
Proof.
  assert (H : buttons sample_page !! 2%nat = Some (mkButton false "Apagar"))
    by reflexivity.
  split; [exact H |].
  destruct (confirm_twice_sends_once sample_page 2 _ H) as (H1 & H2 & _).
  rewrite H2. exact H1.
Defined.

(** *** Controls and regions *)

Lemma write_button_other (btn other : nat) (f : button -> button) :
  other <> btn ->
  preserves (same (fun p => buttons p !! other)) (write_button btn f).
Proof.
  intros Hne p. unfold same, exec, write_button, read_button, bind, gets, modify.
  simpl. destruct (buttons p !! btn); simpl; [| reflexivity].
  apply lookup_insert_ne. congruence.
Qed.

Ltac unfold_dashboard :=
  unfold resume, cargarEstadoActual_then, cargarLogs_then, enviarComando_then,
    confirmarApagadoFinal_then, confirmarApagado, enviarComando, cerrarModal,
    cargarEstadoActual, cargarLogs, fire.

(** X5.  A dispatch only ever writes its own control: from the click to
    the settled response, every other control keeps its state and
    label. *)
Theorem dispatch_leaves_other_controls (p : page) (btn other : nat) :
  other <> btn ->
  (forall modo, buttons (exec (enviarComando modo btn) p) !! other = buttons p !! other) /\
  (buttons (exec confirmarApagadoFinal (exec (confirmarApagado btn) p)) !! other
   = buttons p !! other) /\
  (forall texto r,
     buttons (exec (resume (KComando btn texto) r) p) !! other = buttons p !! other) /\
  (forall texto r,
     buttons (exec (resume (KApagado btn texto) r) p) !! other = buttons p !! other).
Proof.
  intros Hne.
  assert (Hw : forall f, preserves (same (fun p => buttons p !! other))
                           (write_button btn f))
    by (intros f; apply write_button_other, Hne).
  split; [| split; [| split]].
  - intros modo.
    assert (Hp : preserves (same (fun p => buttons p !! other)) (enviarComando modo btn)).
    { unfold enviarComando, read_button.
      repeat dash_hyp_step. }
    exact (Hp p).
  - set (q := exec (confirmarApagado btn) p).
    assert (Hq : btnActual q = Some btn) by reflexivity.
    assert (Hb : buttons q = buttons p) by reflexivity.
    rewrite <- Hb. clearbody q. unfold exec, confirmarApagadoFinal.
    rewrite (bind_ok (gets btnActual) _ q q (Some btn))
      by (unfold gets; rewrite Hq; reflexivity).
    match goal with
    | |- buttons (snd (?m ?q)) !! other = _ =>
        assert (Hp : preserves (same (fun p => buttons p !! other)) m)
    end.
    { unfold cerrarModal, read_button.
      repeat dash_hyp_step. }
    exact (Hp q).
  - intros texto r.
    assert (Hp : preserves (same (fun p => buttons p !! other))
                   (resume (KComando btn texto) r)).
    { unfold_dashboard. repeat dash_hyp_step. }
    exact (Hp p).
  - intros texto r.
    assert (Hp : preserves (same (fun p => buttons p !! other))
                   (resume (KApagado btn texto) r)).
    { unfold_dashboard. repeat dash_hyp_step. }
    exact (Hp p).
Qed.

Lemma dispatch_leaves_other_controls_witness :
  buttons (exec (resume (KComando 1 "Cine") NetworkFailure)
             (exec (enviarComando "CINE" 1) sample_page)) !! 2%nat
  = Some (mkButton false "Apagar").
Proof.
  assert (H : 2%nat <> 1%nat) by lia.
  destruct (dispatch_leaves_other_controls (exec (enviarComando "CINE" 1) sample_page)
              1 2 H) as (_ & _ & H3 & _).
  rewrite (H3 "Cine" NetworkFailure).
  destruct (dispatch_leaves_other_controls sample_page 1 2 H) as (H1 & _).
  rewrite (H1 "CINE"). reflexivity.
Defined.

Lemma step_settled (p : page) (i : nat) (r : fetch_result) (k : cont) :
  inflight p !! i = Some k ->
  step p (EvSettled i r)
  = exec (resume k r) (set_inflight (delete i (inflight p)) p).
Proof.
  intros H. unfold step, exec, handle.
  erewrite bind_ok by reflexivity. rewrite H.
  erewrite bind_ok by reflexivity. reflexivity.
Qed.



(** *** The log viewer, further *)

(** X7.  A log refresh, whatever its outcome, shows no notice and sets no
    timer, sends nothing, and leaves the state panel, the controls and the
    confirmation guard alone: at most the log box, its scroll position
    and the console differ. *)
Theorem log_refresh_is_silent (p : page) (r : fetch_result) :
  exists box top entries,
    exec (cargarLogs_then r) p
    = set_console (console p ++ entries)
        (set_log_scrollTop top (set_log_box box p)) /\
    (length entries <= 1)%nat.
Proof.
  assert (H : forall X (proj : page -> X),
            (forall q x, proj (set_log_box x q) = proj q) ->
            (forall q x, proj (set_log_scrollTop x q) = proj q) ->
            (forall q x, proj (set_console x q) = proj q) ->
            proj (exec (cargarLogs_then r) p) = proj p).
  { intros X proj H1 H2 H3.
    assert (Hp : preserves (same proj) (cargarLogs_then r)).
    { unfold cargarLogs_then, append_log. repeat dash_hyp_step. }
    exact (Hp p). }
  assert (Hc : exists entries,
            console (exec (cargarLogs_then r) p) = console p ++ entries /\
            (length entries <= 1)%nat).
  { unfold exec, cargarLogs_then, try_catch.
    match goal with
    | |- context [match ?m p with _ => _ end] =>
        assert (Hm : console (snd (m p)) = console p);
        [ assert (Hp : preserves (same console) m)
            by (unfold append_log; repeat dash_hyp_step);
          exact (Hp p)
        | destruct (m p) as [[u | e] q] ]
    end; simpl in *.
    - exists []. rewrite app_nil_r. split; [exact Hm | simpl; lia].
    - exists [("Error al cargar logs:", e)]. rewrite Hm. split; [reflexivity | simpl; lia]. }
  destruct Hc as (entries & Hc & Hlen).
  exists (log_box (exec (cargarLogs_then r) p)),
         (log_scrollTop (exec (cargarLogs_then r) p)), entries.
  split; [| exact Hlen].
  pose proof (H _ modo_val (fun _ _ => eq_refl) (fun _ _ => eq_refl) (fun _ _ => eq_refl)).
  pose proof (H _ cpu_val (fun _ _ => eq_refl) (fun _ _ => eq_refl) (fun _ _ => eq_refl)).
  pose proof (H _ latencia_val (fun _ _ => eq_refl) (fun _ _ => eq_refl) (fun _ _ => eq_refl)).
  pose proof (H _ kpi_estado (fun _ _ => eq_refl) (fun _ _ => eq_refl) (fun _ _ => eq_refl)).
  pose proof (H _ notificaciones (fun _ _ => eq_refl) (fun _ _ => eq_refl) (fun _ _ => eq_refl)).
  pose proof (H _ next_el (fun _ _ => eq_refl) (fun _ _ => eq_refl) (fun _ _ => eq_refl)).
  pose proof (H _ timers (fun _ _ => eq_refl) (fun _ _ => eq_refl) (fun _ _ => eq_refl)).
  pose proof (H _ modal_confirm (fun _ _ => eq_refl) (fun _ _ => eq_refl) (fun _ _ => eq_refl)).
  pose proof (H _ btnActual (fun _ _ => eq_refl) (fun _ _ => eq_refl) (fun _ _ => eq_refl)).
  pose proof (H _ buttons (fun _ _ => eq_refl) (fun _ _ => eq_refl) (fun _ _ => eq_refl)).
  pose proof (H _ inflight (fun _ _ => eq_refl) (fun _ _ => eq_refl) (fun _ _ => eq_refl)).
  pose proof (H _ sent (fun _ _ => eq_refl) (fun _ _ => eq_refl) (fun _ _ => eq_refl)).
  clear H. destruct (exec (cargarLogs_then r) p); destruct p; simpl in *.
  unfold set_console, set_log_scrollTop, set_log_box; simpl.
  subst. reflexivity.
Qed.

Lemma for_each_append_log_stops (good rest : list value) (bad : value) (q : page) :
  Forall is_entry good ->
  bad = VUndef \/ bad = VNull ->
  for_each_list append_log (good ++ bad :: rest) q
  = (Thrown TypeError, set_log_box (log_box q +:+ rows (map rendered_log good)) q).
Proof.
  intros Hg Hb. revert q. induction Hg as [| log good Hlog _ IH]; intros q.
  - simpl. rewrite append_empty_r.
    unfold bind, append_log.
    destruct Hb as [-> | ->]; simpl; destruct q; reflexivity.
  - simpl. rewrite (bind_ok _ _ _ _ _ (append_log_ok _ _ Hlog)).
    rewrite IH. simpl. rewrite append_assoc. reflexivity.
Qed.



(** *** Dispatch outcomes *)

Lemma is_str_eq (v : value) (s : string) : is_str v s = true -> v = VStr s.
Proof.
  destruct v; simpl; try discriminate.
  intros H. apply String.eqb_eq in H. subst. reflexivity.
Qed.

(** X9.  The confirmed OFF dispatch goes by the body alone, whatever the
    HTTP status: a success body with a state is rendered, announced with
    the fixed notice "Sistema apagado correctamente" and followed by one
    log refresh request; any other status leaves the state panel as it
    was, shows the message of the body as an error and sends nothing. *)
Theorem confirmed_off_outcomes
    (p : page) (btn : nat) (texto : string) (status : Z) (d s : value) :
  prop d "status" = Some s ->
  let p' := exec (confirmarApagadoFinal_then btn texto (Response status (Some d))) p in
  (is_str s "success" = true ->
   forall e m c l,
     prop d "estado" = Some e ->
     prop e "modo_actual" = Some m ->
     prop e "carga_cpu" = Some c ->
     prop e "latencia" = Some l ->
     modo_val p' = text_content m /\
     cpu_val p' = text_content c /\
     latencia_val p' = text_content l /\
     last (notificaciones p')
     = Some (mkNotif (next_el p) "notificacion success"
               "Sistema apagado correctamente" EmptyString) /\
     sent p' = sent p ++ [logs_request] /\
     inflight p' = inflight p ++ [KLogs]) /\
  (is_str s "success" = false ->
   displayed p' = displayed p /\
   last (notificaciones p')
   = Some (mkNotif (next_el p) "notificacion error"
             (text_content (field d "msg")) EmptyString) /\
   sent p' = sent p /\ inflight p' = inflight p).
Proof.
  intros Hs p'. subst p'.
  assert (Hmsg : prop d "msg" = Some (field d "msg")).
  { unfold field. destruct (prop_total _ _ _ "msg" Hs) as [x ->]. reflexivity. }
  unfold confirmarApagadoFinal_then. rewrite exec_try_finally.
  match goal with
  | |- context [exec ?f (exec ?m p)] =>
      dash_same displayed f (exec m p) Hd;
      dash_same modo_val f (exec m p) Hd1;
      dash_same cpu_val f (exec m p) Hd2;
      dash_same latencia_val f (exec m p) Hd3;
      dash_same notificaciones f (exec m p) Hn;
      dash_same sent f (exec m p) Hsent;
      dash_same inflight f (exec m p) Hin
  end.
  rewrite Hd, Hd1, Hd2, Hd3, Hn, Hsent, Hin. clear Hd Hd1 Hd2 Hd3 Hn Hsent Hin.
  unfold exec.
  erewrite try_catch_bind_ok by reflexivity.
  erewrite try_catch_bind_ok by reflexivity.
  cbn [fst snd].
  erewrite try_catch_bind_ok by (apply get_prop_ok, Hs).
  split.
  - intros Hsucc e m c l He Hm Hc Hl. rewrite Hsucc.
    erewrite try_catch_bind_ok by (apply get_prop_ok, He).
    erewrite try_catch_bind_ok by (apply actualizarUI_ok; eassumption).
    erewrite try_catch_bind_ok by (apply mostrarNotificacion_ok).
    unfold try_catch, cargarLogs, fetch, modify. simpl.
    repeat split; try reflexivity. apply last_snoc.
  - intros Hfail. rewrite Hfail.
    erewrite try_catch_bind_ok by (apply get_prop_ok, Hmsg).
    unfold try_catch. rewrite mostrarNotificacion_ok. simpl.
    repeat split; try reflexivity. apply last_snoc.
Qed.

Lemma confirmed_off_outcomes_witness :
  modo_val (exec (confirmarApagadoFinal_then 2 "Apagar"
                    (Response 500 (Some sample_success))) sample_page) = "CINE" /\
  sent (exec (confirmarApagadoFinal_then 2 "Apagar"
                (Response 200 (Some (VObj [("status", VStr "error");
                                           ("msg", VStr "no")])))) sample_page) = [].
Proof.
  split.
  - destruct (confirmed_off_outcomes sample_page 2 "Apagar" 500 sample_success
                (VStr "success") eq_refl) as [H _].
    destruct (H eq_refl
                (VObj [("modo_actual", VStr "CINE"); ("carga_cpu", VNum 88);
                       ("latencia", VNum 24)])
                (VStr "CINE") (VNum 88) (VNum 24) eq_refl eq_refl eq_refl eq_refl)
      as [Hm _].
    exact Hm.
  - destruct (confirmed_off_outcomes sample_page 2 "Apagar" 200
                (VObj [("status", VStr "error"); ("msg", VStr "no")])
                (VStr "error") eq_refl) as [_ H].
    destruct (H eq_refl) as (_ & _ & Hsent & _). exact Hsent.
Defined.



(** *** Notices and their timers *)

Lemma mostrarNotificacion_fresh msg tipo :
  preserves (keeps fresh_ids) (mostrarNotificacion msg tipo).
Proof.
  intros p [Hn Ht]. unfold exec. rewrite mostrarNotificacion_ok.
  unfold fresh_ids. simpl. split.
  - apply Forall_app. split.
    + destruct (notificaciones p) as [| x l]; simpl; [exact (List.Forall_nil _) |].
      inversion Hn; subst. eapply Forall_impl; [eassumption |].
      simpl. intros; lia.
    + apply List.Forall_cons; [simpl; lia | exact (List.Forall_nil _)].
  - apply Forall_app. split.
    + eapply Forall_impl; [exact Ht |]. simpl. intros; lia.
    + apply List.Forall_cons; [simpl; lia | exact (List.Forall_nil _)].
Qed.

Lemma fire_fresh (p : page) (t : timer) :
  (timer_el t < next_el p)%nat ->
  fresh_ids p -> fresh_ids (exec (fire t) p).
Proof.
  intros Hlt [Hn Ht]. unfold fresh_ids, exec.
  destruct t as [n | n]; simpl in *.
  - split.
    + apply List.Forall_forall. intros x Hx. apply in_map_iff in Hx.
      destruct Hx as (y & <- & Hy).
      rewrite List.Forall_forall in Hn. specialize (Hn y Hy).
      destruct (Nat.eqb (el y) n); simpl; exact Hn.
    + apply Forall_app. split;
        [exact Ht | apply List.Forall_cons; [exact Hlt | exact (List.Forall_nil _)]].
  - split; [| exact Ht].
    apply List.Forall_forall. intros x Hx. apply filter_In in Hx.
    rewrite List.Forall_forall in Hn. apply Hn, Hx.
Qed.

Lemma handle_fresh (ev : event) : preserves (keeps fresh_ids) (handle ev).
Proof.
  destruct ev; unfold handle;
    try solve [ unfold confirmarApagadoFinal; unfold_dashboard;
                unfold write_button, read_button, fetch;
                repeat frame_step ].
  - (* a fetch settles *)
    apply preserves_bind; [apply keeps_trans | frame_step | intros ks].
    destruct (ks !! i) as [k |]; [| frame_step].
    apply preserves_bind; [apply keeps_trans | frame_step |].
    intros _. destruct k; unfold_dashboard;
      unfold actualizarUI, append_log, write_button, read_button, fetch,
        console_error, await_fetch;
      repeat lazymatch goal with
        | |- preserves _ (mostrarNotificacion _ _) => apply mostrarNotificacion_fresh
        | |- _ => frame_step
        end.
  - (* a timer fires *)
    intros p Hf. unfold exec, handle.
    erewrite bind_ok by reflexivity.
    destruct (timers p !! i) as [t |] eqn:Ht; [| exact Hf].
    erewrite bind_ok by reflexivity.
    destruct Hf as [Hn Hts].
    apply (fire_fresh (set_timers (delete i (timers p)) p) t).
    + rewrite List.Forall_forall in Hts. apply Hts.
      apply list_elem_of_In. eapply list_elem_of_lookup_2. exact Ht.
    + split; [exact Hn |]. simpl.
      apply List.Forall_forall. intros x Hx. rewrite List.Forall_forall in Hts.
      apply Hts. apply list_elem_of_In. apply list_elem_of_In in Hx.
      eapply list_elem_of_delete_inv. exact Hx.
Qed.

(** X11.  Elements are numbered as they are created, in every state the
    page can reach; so the timers an earlier notice left behind never
    touch a later one: whichever pending timer fires right after a new
    notice is shown, the new notice is still the last element of the
    document, unchanged. *)
Theorem stale_timers_spare_new_notice (p : page) :
  fresh_ids p ->
  (forall evs, fresh_ids (run evs p)) /\
  (forall msg tipo t,
     In t (timers p) ->
     last (notificaciones (exec (fire t) (exec (mostrarNotificacion msg tipo) p)))
     = Some (mkNotif (next_el p) ("notificacion " +:+ tipo) (text_content msg)
               EmptyString)).
Proof.
  intros Hf. split.
  - intros evs. revert p Hf. induction evs as [| ev evs IH]; intros p Hf.
    + exact Hf.
    + simpl. apply IH. apply (handle_fresh ev p), Hf.
  - intros msg tipo t Hin. destruct Hf as [_ Hts].
    rewrite List.Forall_forall in Hts. specialize (Hts t Hin).
    unfold exec at 2. rewrite mostrarNotificacion_ok. unfold exec.
    destruct t as [n | n]; simpl in *.
    + rewrite map_app. simpl.
      replace (Nat.eqb (next_el p) n) with false
        by (symmetry; apply Nat.eqb_neq; lia).
      apply last_snoc.
    + rewrite List.filter_app. simpl.
      replace (Nat.eqb (next_el p) n) with false
        by (symmetry; apply Nat.eqb_neq; lia).
      simpl. apply last_snoc.
Qed.

Lemma stale_timers_spare_new_notice_witness :
  let p := run [EvEnviarComando "CINE" 1; EvSettled 0 NetworkFailure] sample_page in
  fresh_ids sample_page /\
  In (SlideOut 0) (timers p) /\
  last (notificaciones
          (exec (fire (SlideOut 0))
             (exec (mostrarNotificacion (VStr "hola") "info") p)))
  = Some (mkNotif 1 "notificacion info" "hola" EmptyString).
Proof.
  intros p.
  assert (H0 : fresh_ids sample_page) by (split; constructor).
  assert (Hin : In (SlideOut 0) (timers p)) by (left; reflexivity).
  split; [exact H0 |]. split; [exact Hin |].
  destruct (stale_timers_spare_new_notice sample_page H0) as [Hrun _].
  destruct (stale_timers_spare_new_notice p (Hrun _)) as [_ H].
  apply (H (VStr "hola") "info" (SlideOut 0) Hin).
Defined.


End DashboardMore.

(** ** The admin panel, further *)

Section AdminMore.
Import Admin AdminExtra.

Ltac run_admin :=
  unfold exec, guardarUsuario_then, confirmarEliminarUsuario_then,
    ejecutarLimpiezaLogs_then, error_msg, alert, console_error, cerrarModalUsuario,
    cerrarModalLimpiarLogs, cargarUsuarios, cargarEstadisticas, fetch, await_fetch,
    try_catch, bind, json_of, get_prop, modify, ret, throw.

(** X13.  Saving a user goes by the body alone, whatever the HTTP status.
    A success body closes the modal, resets the form and asks again for
    the user list and then the counters; every other outcome leaves the
    modal open and the form as the user filled it, sends nothing, and
    shows one alert. *)
Theorem save_outcomes (p : page) (r : fetch_result) :
  let p' := exec (guardarUsuario_then r) p in
  (forall status d,
     r = Response status (Some d) -> prop d "status" = Some (VStr "success") ->
     form_usuario p' = form_defaults p /\ modal_usuario p' = "none" /\
     dialogs p' = dialogs p ++ ["Usuario guardado correctamente"] /\
     sent p' = sent p ++ [usuarios_request; estadisticas_request] /\
     inflight p' = inflight p ++ [KUsuarios; KEstadisticas]) /\
  ((forall status d,
      r = Response status (Some d) -> prop d "status" <> Some (VStr "success")) ->
   form_usuario p' = form_usuario p /\ modal_usuario p' = modal_usuario p /\
   sent p' = sent p /\ inflight p' = inflight p /\
   exists msg, dialogs p' = dialogs p ++ [msg]).
Proof.
  intros p'. subst p'. split.
  - intros status d -> Hs. run_admin. simpl. rewrite Hs. simpl.
    rewrite <- !app_assoc. repeat split.
  - intros Hnot. destruct r as [| status [d |]]; run_admin; simpl.
    + repeat split. eexists. reflexivity.
    + destruct (prop d "status") as [s |] eqn:Hs; simpl.
      * destruct (is_str s "success") eqn:Hsucc.
        -- exfalso. apply is_str_eq in Hsucc. subst.
           exact (Hnot _ _ eq_refl Hs).
        -- destruct (prop d "error"); simpl; repeat split; eexists; reflexivity.
      * repeat split. eexists. reflexivity.
    + repeat split. eexists. reflexivity.
Qed.

Lemma save_outcomes_witness :
  form_usuario (exec (guardarUsuario_then
                        (Response 400 (Some (VObj [("status", VStr "error");
                                                   ("error", VStr "Usuario duplicado")]))))
                  sample_admin)
  = form_usuario sample_admin /\
  sent (exec (guardarUsuario_then (Response 200 (Some (VObj [("status", VStr "success")]))))
          sample_admin)
  = [usuarios_request; estadisticas_request].
Proof.
  split.
  - apply (proj2 (save_outcomes sample_admin
                    (Response 400 (Some (VObj [("status", VStr "error");
                                               ("error", VStr "Usuario duplicado")]))))).
    intros status d H. injection H as _ <-. discriminate.
  - apply (proj1 (save_outcomes sample_admin
                    (Response 200 (Some (VObj [("status", VStr "success")]))))
             200 _ eq_refl eq_refl).
Defined.

(** X14.  Every settled admin action tells the user exactly once: the
    continuations of saving a user, deactivating a user and purging the
    logs each show one alert on every outcome, and a rejected fetch or an
    unparsable body is always reported as "Error de conexión". *)
Theorem admin_actions_alert_once (p : page) (r : fetch_result) :
  (exists msg, dialogs (exec (guardarUsuario_then r) p) = dialogs p ++ [msg]) /\
  (exists msg, dialogs (exec (confirmarEliminarUsuario_then r) p) = dialogs p ++ [msg]) /\
  (exists msg, dialogs (exec (ejecutarLimpiezaLogs_then r) p) = dialogs p ++ [msg]) /\
  ((r = NetworkFailure \/ exists status, r = Response status None) ->
   dialogs (exec (guardarUsuario_then r) p) = dialogs p ++ ["Error de conexión"] /\
   dialogs (exec (confirmarEliminarUsuario_then r) p) = dialogs p ++ ["Error de conexión"] /\
   dialogs (exec (ejecutarLimpiezaLogs_then r) p) = dialogs p ++ ["Error de conexión"]).
Proof.
  split; [| split; [| split]].
  - destruct r as [| status [d |]]; run_admin; simpl; try (eexists; reflexivity).
    destruct (prop d "status") as [s |]; simpl; [| eexists; reflexivity].
    destruct (is_str s "success"); simpl; [eexists; reflexivity |].
    destruct (prop d "error"); simpl; eexists; reflexivity.
  - destruct r as [| status [d |]]; run_admin; simpl; try (eexists; reflexivity).
    destruct (prop d "status") as [s |]; simpl; [| eexists; reflexivity].
    destruct (is_str s "success"); simpl; [eexists; reflexivity |].
    destruct (prop d "error"); simpl; eexists; reflexivity.
  - destruct r as [| status [d |]]; run_admin; simpl; try (eexists; reflexivity).
    destruct (prop d "status") as [s |]; simpl; [| eexists; reflexivity].
    destruct (is_str s "success"); simpl.
    + destruct (prop d "eliminados"); simpl; eexists; reflexivity.
    + destruct (prop d "error"); simpl; eexists; reflexivity.
  - intros [-> | [status ->]]; repeat split.
Qed.

Lemma admin_actions_alert_once_witness :
  dialogs (exec (confirmarEliminarUsuario_then NetworkFailure) sample_admin)
  = ["Error de conexión"].
Proof.
  destruct (admin_actions_alert_once sample_admin NetworkFailure) as (_ & _ & _ & H).
  destruct H as (_ & H & _); [left; reflexivity | exact H].
Defined.

(** X15.  A settled admin action never sends a command again: whatever
    the response, the continuations of saving, deactivating and purging
    send at most the GET requests that refresh the user list and the
    counters, so no save, DELETE or cleanup is ever repeated by itself. *)
Theorem admin_continuations_only_refresh (p : page) (r : fetch_result) :
  let only_refresh (q : page) :=
    exists extra, sent q = sent p ++ extra /\
                  Forall (fun req => req = usuarios_request \/
                                     req = estadisticas_request) extra in
  only_refresh (exec (guardarUsuario_then r) p) /\
  only_refresh (exec (confirmarEliminarUsuario_then r) p) /\
  only_refresh (exec (ejecutarLimpiezaLogs_then r) p).
Proof.
  intros only_refresh. subst only_refresh. simpl.
  assert (H0 : exists extra, sent p = sent p ++ extra /\
                 Forall (fun req => req = usuarios_request \/
                                    req = estadisticas_request) extra).
  { exists []. rewrite app_nil_r. split; [reflexivity | exact (List.Forall_nil _)]. }
  assert (H2 : exists extra,
                 (sent p ++ [usuarios_request]) ++ [estadisticas_request]
                 = sent p ++ extra /\
                 Forall (fun req => req = usuarios_request \/
                                    req = estadisticas_request) extra).
  { exists [usuarios_request; estadisticas_request]. rewrite <- app_assoc.
    split; [reflexivity |].
    apply List.Forall_cons; [left; reflexivity |].
    apply List.Forall_cons; [right; reflexivity | exact (List.Forall_nil _)]. }
  assert (H1 : exists extra,
                 sent p ++ [estadisticas_request] = sent p ++ extra /\
                 Forall (fun req => req = usuarios_request \/
                                    req = estadisticas_request) extra).
  { exists [estadisticas_request]. split; [reflexivity |].
    apply List.Forall_cons; [right; reflexivity | exact (List.Forall_nil _)]. }
  split; [| split].
  - destruct r as [| status [d |]]; run_admin; simpl; try exact H0.
    destruct (prop d "status") as [s |]; simpl; [| exact H0].
    destruct (is_str s "success"); simpl; [exact H2 |].
    destruct (prop d "error"); simpl; exact H0.
  - destruct r as [| status [d |]]; run_admin; simpl; try exact H0.
    destruct (prop d "status") as [s |]; simpl; [| exact H0].
    destruct (is_str s "success"); simpl; [exact H2 |].
    destruct (prop d "error"); simpl; exact H0.
  - destruct r as [| status [d |]]; run_admin; simpl; try exact H0.
    destruct (prop d "status") as [s |]; simpl; [| exact H0].
    destruct (is_str s "success"); simpl.
    + destruct (prop d "eliminados"); simpl; [exact H1 | exact H0].
    + destruct (prop d "error"); simpl; exact H0.
Qed.
End AdminMore.

(** ** The login page *)

Section LoginFacts.
Import Login.

Ltac run_login :=
  unfold exec, handleLogin_then, handleLogin, mostrarAlerta, set_timeout, fetch,
    await_fetch, try_catch, bind, json_of, get_prop, gets, modify, ret, throw.

Lemma handleLogin_then_rejected (p : page) (r : fetch_result) :
  ~ accepted r ->
  let p' := exec (handleLogin_then r) p in
  btn_disabled p' = false /\ btn_html p' = "Iniciar Sesión" /\
  alert_class p' = "alert alert-error" /\ alert_display p' = "block" /\
  timers p' = timers p /\ location p' = location p /\ sent p' = sent p /\
  inflight p' = inflight p.
Proof.
  intros Hna p'. subst p'.
  destruct r as [| status [d |]]; run_login; simpl.
  - repeat split.
  - destruct (res_ok status) eqn:Hok; simpl.
    + destruct (prop d "status") as [s |] eqn:Hs; simpl; [| repeat split].
      destruct (is_str s "success") eqn:Hsucc; simpl.
      * exfalso. apply Hna. exists status, d. apply is_str_eq in Hsucc. subst.
        auto.
      * destruct (prop d "error"); simpl; repeat split.
    + destruct (prop d "error"); simpl; repeat split.
  - destruct (res_ok status); simpl; repeat split.
Qed.

(** X16.  A login attempt that is not accepted (rejected fetch, body
    that does not parse, status outside 2xx even with a success body, or
    a body that does not say success) always gives the form back: the
    button is enabled with the label "Iniciar Sesión", an error alert is
    displayed, and neither a redirect nor the hiding of the alert is
    scheduled. *)
Theorem login_failure_reenables (p : page) (r : fetch_result) :
  ~ accepted r ->
  let p' := exec (handleLogin_then r) (exec handleLogin p) in
  btn_disabled p' = false /\ btn_html p' = "Iniciar Sesión" /\
  alert_class p' = "alert alert-error" /\ alert_display p' = "block" /\
  timers p' = timers p /\ location p' = location p /\
  ((r = NetworkFailure \/ exists status, r = Response status None) ->
   alert_text p' = "Error de conexión con el servidor").
Proof.
  intros Hna p'.
  destruct (handleLogin_then_rejected (exec handleLogin p) r Hna)
    as (H1 & H2 & H3 & H4 & H5 & H6 & _).
  subst p'. repeat (split; [assumption |]).
  intros [-> | [status ->]]; reflexivity.
Qed.

Lemma login_failure_reenables_witness :
  ~ accepted (Response 401 (Some (VObj [("status", VStr "success")]))) /\
  btn_disabled (exec (handleLogin_then
                        (Response 401 (Some (VObj [("status", VStr "success")]))))
                  (exec handleLogin sample_login)) = false.
Proof.
  assert (H : ~ accepted (Response 401 (Some (VObj [("status", VStr "success")])))).
  { intros (status & d & E & Hok & _). injection E as <- _. discriminate. }
  split; [exact H |].
  apply (login_failure_reenables sample_login _ H).
Defined.

(** X17.  An accepted login keeps the button disabled and busy, shows the
    message of the body as a success alert, and schedules the hiding of
    the alert and the redirect; once both timers have fired, in either
    order, the browser is at the address the body gave and the alert is
    hidden.  The request carried the two fields as typed. *)
Theorem login_success_redirects (p : page) (status : Z) (d : value) :
  res_ok status = true ->
  prop d "status" = Some (VStr "success") ->
  let p0 := exec handleLogin p in
  let p' := exec (handleLogin_then (Response status (Some d))) p0 in
  sent p0 = sent p ++ [mkRequest "/login" "POST"
                         (Some (VObj [("username", VStr (username p));
                                      ("password", VStr (password p))]))] /\
  btn_disabled p' = true /\ btn_html p' = autenticando /\
  alert_text p' = text_content (Dashboard.field d "msg") /\
  alert_class p' = "alert alert-success" /\ alert_display p' = "block" /\
  timers p' = timers p ++ [HideAlert; Redirect d] /\
  location p' = location p /\
  (forall q, q = exec (fire HideAlert) (exec (fire (Redirect d)) p') \/
             q = exec (fire (Redirect d)) (exec (fire HideAlert) p') ->
     location q = to_string (Dashboard.field d "redirect") /\ alert_display q = "none").
Proof.
  intros Hok Hs p0 p'.
  assert (Hm : prop d "msg" = Some (Dashboard.field d "msg")).
  { unfold Dashboard.field. destruct (prop_total _ _ _ "msg" Hs) as [x ->]. reflexivity. }
  assert (Hr : prop d "redirect" = Some (Dashboard.field d "redirect")).
  { unfold Dashboard.field. destruct (prop_total _ _ _ "redirect" Hs) as [x ->]. reflexivity. }
  assert (E : p' = set_timers (timers p ++ [HideAlert; Redirect d])
                     (set_alert_display "block"
                        (set_alert_class "alert alert-success"
                           (set_alert_text (text_content (Dashboard.field d "msg")) p0)))).
  { subst p' p0. run_login. simpl. rewrite Hok. simpl. rewrite Hs. simpl.
    rewrite Hm. simpl. rewrite <- app_assoc. reflexivity. }
  split; [reflexivity |]. rewrite E.
  repeat (split; [reflexivity |]).
  intros q [-> | ->]; unfold exec, fire, bind, get_prop, modify; rewrite Hr;
    simpl; split; reflexivity.
Qed.

Lemma login_success_redirects_witness :
  location
    (exec (fire HideAlert)
       (exec (fire (Redirect (VObj [("status", VStr "success");
                                    ("msg", VStr "Bienvenido");
                                    ("redirect", VStr "/dashboard")])))
          (exec (handleLogin_then
                   (Response 200 (Some (VObj [("status", VStr "success");
                                              ("msg", VStr "Bienvenido");
                                              ("redirect", VStr "/dashboard")]))))
             (exec handleLogin sample_login))))
  = "/dashboard".
Proof.
  destruct (login_success_redirects sample_login 200
              (VObj [("status", VStr "success"); ("msg", VStr "Bienvenido");
                     ("redirect", VStr "/dashboard")]) eq_refl eq_refl)
    as (_ & _ & _ & _ & _ & _ & _ & _ & H).
  apply (H _ (or_introl eq_refl)).
Defined.

Lemma is_redirect_dec (t : timer) : t = HideAlert \/ is_redirect t.
Proof. destruct t; simpl; auto. Qed.

(** X18.  The browser leaves the login page only after an accepted login:
    as long as no pending login settles to an accepted response, however
    submissions, failures and timers interleave, no redirect is ever
    scheduled and the address stays what it was. *)
Theorem no_redirect_without_accepted_login (p : page) (evs : list event) :
  Forall (fun t => ~ is_redirect t) (timers p) ->
  Forall (fun ev => forall r, ev = EvSettled r -> ~ accepted r) evs ->
  location (run evs p) = location p /\
  Forall (fun t => ~ is_redirect t) (timers (run evs p)).
Proof.
  intros Ht Hevs. revert p Ht.
  induction Hevs as [| ev evs Hev _ IH]; intros p Ht.
  - split; [reflexivity | exact Ht].
  - simpl.
    assert (Hstep : location (step p ev) = location p /\
                    Forall (fun t => ~ is_redirect t) (timers (step p ev))).
    { destruct ev as [| r | i]; unfold step, handle.
      - split; [reflexivity | exact Ht].
      - unfold exec. erewrite bind_ok by reflexivity.
        destruct (inflight p) as [| n] eqn:Hn; [split; [reflexivity | exact Ht] |].
        erewrite bind_ok by reflexivity.
        destruct (handleLogin_then_rejected (set_inflight n p) r (Hev r eq_refl))
          as (_ & _ & _ & _ & H5 & H6 & _).
        unfold exec in H5, H6. rewrite H5, H6. split; [reflexivity | exact Ht].
      - unfold exec. erewrite bind_ok by reflexivity.
        destruct (timers p !! i) as [t |] eqn:Hi; [| split; [reflexivity | exact Ht]].
        erewrite bind_ok by reflexivity.
        assert (Hd : Forall (fun t => ~ is_redirect t) (delete i (timers p))).
        { apply List.Forall_forall. intros x Hx.
          rewrite List.Forall_forall in Ht. apply Ht.
          apply list_elem_of_In. apply list_elem_of_In in Hx.
          eapply list_elem_of_delete_inv. exact Hx. }
        destruct (is_redirect_dec t) as [-> | Hred].
        + simpl. split; [reflexivity | exact Hd].
        + exfalso. rewrite List.Forall_forall in Ht. apply (Ht t); [| exact Hred].
          apply list_elem_of_In. eapply list_elem_of_lookup_2. exact Hi. }
    destruct Hstep as [Hl Ht'].
    destruct (IH (step p ev) Ht') as [IH1 IH2].
    split; [rewrite IH1; exact Hl | exact IH2].
Qed.

Lemma no_redirect_without_accepted_login_witness :
  location (run [EvSubmit; EvSettled NetworkFailure; EvSubmit;
                 EvSettled (Response 401 (Some (VObj [("error", VStr "Credenciales")])));
                 EvTimeout 0] sample_login)
  = "/login".
Proof.
  apply (no_redirect_without_accepted_login sample_login).
  - exact (List.Forall_nil _).
  - repeat apply List.Forall_cons; try exact (List.Forall_nil _);
      intros r E; try discriminate; injection E as <-;
      intros (status & d & E' & Hok & Hs); try discriminate.
    injection E' as <- <-. discriminate.
Defined.
End LoginFacts.

(** ** The views of the admin panel *)

(** A list rendered by appending one row per element to a region of the
    page: the region ends up as what it held followed by the rows in list
    order; and when an element makes the callback raise, the rows before
    it stay and nothing after it is rendered. *)
Section ForEachRows.
Context {S : Type} (f : value -> M S unit).
Context (get : S -> string) (set : string -> S -> S) (render : value -> string).
Context (ok : value -> Prop).
Hypothesis set_set : forall s v w, set v (set w s) = set v s.
Hypothesis get_set : forall s v, get (set v s) = v.
Hypothesis set_get : forall s, set (get s) s = s.
Hypothesis f_ok :
  forall x s, ok x -> f x s = (Ok tt, set (get s +:+ render x) s).

Lemma for_each_rows (l : list value) (s : S) :
  Forall ok l ->
  for_each_list f l s = (Ok tt, set (get s +:+ Dashboard.rows (map render l)) s).
Proof.
  intros H. revert s. induction H as [| x l Hx _ IH]; intros s.
  - simpl. rewrite append_empty_r, set_get. reflexivity.
  - simpl. rewrite (bind_ok _ _ _ _ _ (f_ok _ _ Hx)).
    rewrite IH, get_set, set_set, append_assoc. reflexivity.
Qed.

Lemma for_each_rows_stops (good rest : list value) (bad : value) (e : exn) (s : S) :
  Forall ok good ->
  (forall s', f bad s' = (Thrown e, s')) ->
  for_each_list f (good ++ bad :: rest) s
  = (Thrown e, set (get s +:+ Dashboard.rows (map render good)) s).
Proof.
  intros H Hbad. revert s. induction H as [| x l Hx _ IH]; intros s.
  - simpl. unfold bind. rewrite Hbad, append_empty_r, set_get. reflexivity.
  - simpl. rewrite (bind_ok _ _ _ _ _ (f_ok _ _ Hx)).
    rewrite IH, get_set, set_set, append_assoc. reflexivity.
Qed.
End ForEachRows.

Lemma views_preserves_bind_await {B} (R : AdminViews.page -> AdminViews.page -> Prop)
    (r : fetch_result) (f : Z * option value -> AdminViews.DOM B) :
  (forall s, R s s) ->
  (forall status b, r = Response status b -> preserves R (f (status, b))) ->
  preserves R (bind (AdminViews.await_fetch r) f).
Proof.
  intros Hr H s. unfold exec, bind, AdminViews.await_fetch.
  destruct r as [| status b]; simpl.
  - apply Hr.
  - apply (H status b eq_refl s).
Qed.

(** One step of a path-keeping frame proof on the views. *)
Ltac views_step :=
  lazymatch goal with
  | |- preserves _ (bind (get_prop _ _) _) =>
      apply preserves_bind_get_prop; [ frame_side | intros ? ? ]
  | |- preserves _ (bind (json_of _) _) =>
      apply preserves_bind_json_of; [ frame_side | intros ? ? ]
  | |- preserves _ (bind (AdminViews.await_fetch _) _) =>
      apply views_preserves_bind_await; [ frame_side | intros ? ? ? ]; cbn [fst snd]
  | |- preserves _ (if ?b then _ else _) => destruct b eqn:?
  | |- _ => frame_step
  end.

(** A frame proof for a response that is not a success body: the branch
    that renders is closed by [Hnot]. *)
Ltac views_unless_success Hnot :=
  unfold AdminViews.console_error, AdminViews.alert;
  repeat first
    [ views_step
    | exfalso;
      match goal with
      | Hp : prop ?d "status" = Some ?x, Hx : is_str ?x "success" = true |- _ =>
          apply is_str_eq in Hx; subst; exact (Hnot _ _ eq_refl Hp)
      end ].

Section AdminViewsFacts.
Import AdminViews AdminViewsExtra.

(** *** The user table *)

Lemma append_usuario_ok (user : value) (s : page) :
  is_entry user ->
  append_usuario user s
  = (Ok tt, set_tabla_usuarios (tabla_usuarios s +:+ rendered_usuario user) s).
Proof.
  intros H. unfold append_usuario, get_prop, gets.
  rewrite !(entry_prop _ _ H). reflexivity.
Qed.

Lemma length_is_zero (l : list value) :
  is_zero (VNum (Z.of_nat (length l))) = match l with [] => true | _ => false end.
Proof. destruct l; reflexivity. Qed.



(** *** Counters *)

Lemma opt_prop_ok (v : value) (k : string) (s : page) :
  opt_prop v k s
  = (Ok (match v with VUndef | VNull => VUndef | _ => field v k end), s).
Proof. destruct v; reflexivity. Qed.

(** X20.  The counters are filled from a success body, whatever the HTTP
    status, each with its number or with 0 when the number is missing or
    falsy; the error counter is 0 as well when the body has no per-level
    counts at all.  The four are written together or not at all: a body
    that is not a success body, or a success body without statistics,
    leaves every counter as it was.  No outcome shows an alert or sends a
    request. *)
Theorem stats_render (p : page) (r : fetch_result) :
  let p' := exec (cargarEstadisticas_then r) p in
  let counters q := (total_logs q, usuarios_activos q, cambios_hoy q, errores_total q) in
  (forall status d stats,
     r = Response status (Some d) ->
     prop d "status" = Some (VStr "success") ->
     prop d "estadisticas" = Some stats ->
     (is_entry stats ->
      total_logs p' = text_content (js_or (field stats "total_logs") (VNum 0)) /\
      usuarios_activos p' = text_content (js_or (field stats "usuarios_activos") (VNum 0)) /\
      cambios_hoy p' = text_content (js_or (field stats "cambios_hoy") (VNum 0)) /\
      errores_total p'
      = text_content (js_or (match field stats "eventos_nivel" with
                             | VUndef | VNull => VUndef
                             | niveles => field niveles "ERROR"
                             end) (VNum 0)) /\
      (field stats "eventos_nivel" = VUndef \/ field stats "eventos_nivel" = VNull ->
       errores_total p' = "0")) /\
     (~ is_entry stats -> counters p' = counters p)) /\
  ((forall status d, r = Response status (Some d) ->
                     prop d "status" <> Some (VStr "success")) ->
   counters p' = counters p) /\
  dialogs p' = dialogs p /\ sent p' = sent p.
Proof.
  intros p' counters. subst p' counters. split; [| split].
  - intros status d stats -> Hs Hst. unfold exec, cargarEstadisticas_then.
    erewrite try_catch_bind_ok by reflexivity.
    erewrite try_catch_bind_ok by reflexivity.
    erewrite try_catch_bind_ok by (apply get_prop_ok, Hs).
    change (is_str (VStr "success") "success") with true. cbv iota.
    erewrite try_catch_bind_ok by (apply get_prop_ok, Hst).
    split.
    + intros He.
      erewrite try_catch_bind_ok by (apply get_prop_ok, entry_prop, He).
      erewrite try_catch_bind_ok by reflexivity.
      erewrite try_catch_bind_ok by (apply get_prop_ok, entry_prop, He).
      erewrite try_catch_bind_ok by reflexivity.
      erewrite try_catch_bind_ok by (apply get_prop_ok, entry_prop, He).
      erewrite try_catch_bind_ok by reflexivity.
      erewrite try_catch_bind_ok by (apply get_prop_ok, entry_prop, He).
      erewrite try_catch_bind_ok by (apply opt_prop_ok).
      unfold try_catch, modify. simpl.
      destruct (field stats "eventos_nivel"); simpl;
        repeat (split; [reflexivity |]);
        intros [E | E]; first [ discriminate E | reflexivity ].
    + intros Hne.
      assert (Hnull : prop stats "total_logs" = None).
      { destruct stats; try reflexivity; exfalso; apply Hne; split; discriminate. }
      erewrite try_catch_bind_thrown
        by (unfold get_prop; rewrite Hnull; reflexivity).
      reflexivity.
  - intros Hnot.
    assert (H : forall X (proj : page -> X),
              (forall q x, proj (set_console x q) = proj q) ->
              preserves (same proj) (cargarEstadisticas_then r)).
    { intros X proj H1. unfold cargarEstadisticas_then. views_unless_success Hnot. }
    rewrite (H _ total_logs), (H _ usuarios_activos), (H _ cambios_hoy),
      (H _ errores_total); reflexivity.
  - assert (H : forall X (proj : page -> X),
              (forall q x, proj (set_total_logs x q) = proj q) ->
              (forall q x, proj (set_usuarios_activos x q) = proj q) ->
              (forall q x, proj (set_cambios_hoy x q) = proj q) ->
              (forall q x, proj (set_errores_total x q) = proj q) ->
              (forall q x, proj (set_console x q) = proj q) ->
              preserves (same proj) (cargarEstadisticas_then r)).
    { intros X proj H1 H2 H3 H4 H5.
      unfold cargarEstadisticas_then, opt_prop, console_error.
      repeat views_step. }
    split.
    + apply (H _ dialogs); reflexivity.
    + apply (H _ sent); reflexivity.
Qed.

Lemma stats_render_witness :
  errores_total
    (exec (cargarEstadisticas_then
             (Response 200 (Some (VObj [("status", VStr "success");
                                        ("estadisticas",
                                         VObj [("total_logs", VNum 12)])]))))
       (set_errores_total "7" sample_views)) = "0" /\
  total_logs
    (exec (cargarEstadisticas_then
             (Response 200 (Some (VObj [("status", VStr "success");
                                        ("estadisticas",
                                         VObj [("total_logs", VNum 12)])]))))
       (set_errores_total "7" sample_views)) = "12".
Proof.
  assert (He : is_entry (VObj [("total_logs", VNum 12)])) by (split; discriminate).
  destruct (proj1 (stats_render (set_errores_total "7" sample_views)
                     (Response 200 (Some (VObj [("status", VStr "success");
                                                ("estadisticas",
                                                 VObj [("total_logs", VNum 12)])]))))
              200 _ (VObj [("total_logs", VNum 12)]) eq_refl eq_refl eq_refl)
    as [H _].
  destruct (H He) as (H1 & _ & _ & _ & H5).
  split.
  - apply H5. left. reflexivity.
  - exact H1.
Defined.

(** *** Log search *)

Section Search.
Variable toLowerCase : string -> string.

Lemma append_busqueda_ok (log : value) (s : page) :
  has_text_level log ->
  append_busqueda toLowerCase log s
  = (Ok tt, set_tabla_logs (tabla_logs s +:+ rendered_busqueda toLowerCase log) s).
Proof.
  intros [He [n Hn]]. unfold append_busqueda, rendered_busqueda.
  rewrite (bind_ok _ _ _ _ _ (get_prop_ok _ _ _ s (entry_prop _ "nivel" He))).
  fold (nivel_class log). rewrite Hn.
  unfold get_prop, gets, lower. rewrite !(entry_prop _ _ He). reflexivity.
Qed.

Lemma append_busqueda_bad (log : value) (s : page) :
  is_entry log ->
  (forall n, nivel_class log <> VStr n) ->
  append_busqueda toLowerCase log s = (Thrown TypeError, s).
Proof.
  intros He Hn. unfold append_busqueda.
  rewrite (bind_ok _ _ _ _ _ (get_prop_ok _ _ _ s (entry_prop _ "nivel" He))).
  fold (nivel_class log).
  unfold get_prop, gets, lower. rewrite !(entry_prop _ _ He).
  destruct (nivel_class log) eqn:E; try reflexivity.
  exfalso. eapply Hn. reflexivity.
Qed.

Lemma buscarLogs_then_list (p : page) (status : Z) (d : value) (logs : list value) :
  prop d "status" = Some (VStr "success") ->
  prop d "logs" = Some (VArr logs) ->
  buscarLogs_then toLowerCase (Response status (Some d)) p
  = try_catch
      (if match logs with [] => true | _ => false end
       then modify (set_tabla_logs sin_registros)
       else for_each_list (append_busqueda toLowerCase) logs)
      (fun e => console_error "Error al buscar logs:" e ;;;
                alert "Error al buscar logs")
      (set_tabla_logs EmptyString p).
Proof.
  intros Hs Hl. unfold buscarLogs_then.
  erewrite try_catch_bind_ok by reflexivity.
  erewrite try_catch_bind_ok by reflexivity.
  erewrite try_catch_bind_ok by (apply get_prop_ok, Hs).
  change (is_str (VStr "success") "success") with true. cbv iota.
  erewrite try_catch_bind_ok by reflexivity.
  erewrite try_catch_bind_ok by (apply get_prop_ok, Hl).
  erewrite (try_catch_bind_ok (get_prop (VArr logs) "length") _ _ _ _
              (VNum (Z.of_nat (length logs)))) by reflexivity.
  rewrite length_is_zero. reflexivity.
Qed.


End Search.



(** *** Timeline and configuration *)

Lemma append_item_ok (item : value) (s : page) :
  is_entry item ->
  append_item item s
  = (Ok tt, set_timeline_modos (timeline_modos s +:+ rendered_item item) s).
Proof.
  intros H. unfold append_item, get_prop, gets.
  rewrite !(entry_prop _ _ H). reflexivity.
Qed.

Lemma append_config_ok (config : value) (s : page) :
  is_entry config ->
  append_config config s
  = (Ok tt, set_config_grid (config_grid s +:+ rendered_config config) s).
Proof.
  intros H. unfold append_config, get_prop, gets.
  rewrite !(entry_prop _ _ H). reflexivity.
Qed.





(** X25.  Saving a configuration sends one PUT, to the address of its
    key, carrying the value of its input and nothing else; when the input
    it names is not in the page it raises before anything is sent.  When
    the response settles, one alert is shown on every outcome, and
    nothing is asked again: the grid and the inputs stay as they are. *)
Theorem config_update (p : page) (clave inputId : string) :
  (inputs p !! inputId = None ->
   actualizarConfig clave inputId p = (Thrown TypeError, p)) /\
  (forall valor,
     inputs p !! inputId = Some valor ->
     actualizarConfig clave inputId p
     = (Ok tt,
        set_inflight (inflight p ++ [KActualizar])
          (set_sent (sent p ++ [mkRequest ("/api/admin/configuraciones/" +:+ clave) "PUT"
                                  (Some (VObj [("valor", VStr valor)]))]) p))) /\
  (forall r,
     let p' := exec (actualizarConfig_then r) p in
     (exists msg, dialogs p' = dialogs p ++ [msg]) /\
     sent p' = sent p /\ inflight p' = inflight p /\
     config_grid p' = config_grid p /\ inputs p' = inputs p).
Proof.
  split; [| split].
  - intros H. unfold actualizarConfig, bind, gets. simpl. rewrite H. reflexivity.
  - intros valor H. unfold actualizarConfig, bind, gets. simpl. rewrite H. reflexivity.
  - intros r p'. subst p'.
    unfold exec, actualizarConfig_then, alert, console_error, await_fetch,
      try_catch, bind, json_of, get_prop, modify, ret, throw.
    destruct r as [| status [d |]]; simpl; try (repeat split; eexists; reflexivity).
    destruct (prop d "status") as [s |]; simpl;
      [| repeat split; eexists; reflexivity].
    destruct (is_str s "success"); simpl; [repeat split; eexists; reflexivity |].
    destruct (prop d "error"); simpl; repeat split; eexists; reflexivity.
Qed.

Lemma config_update_witness :
  inputs sample_views !! "config-1" = Some "30" /\
  sent (exec (actualizarConfig "timeout" "config-1") sample_views)
  = [mkRequest "/api/admin/configuraciones/timeout" "PUT"
       (Some (VObj [("valor", VStr "30")]))] /\
  outcome (actualizarConfig "timeout" "config-9") sample_views = Thrown TypeError.
Proof.
  assert (H1 : inputs sample_views !! "config-1" = Some "30") by reflexivity.
  assert (H9 : inputs sample_views !! "config-9" = None) by reflexivity.
  split; [exact H1 |]. split.
  - unfold exec.
    rewrite (proj1 (proj2 (config_update sample_views "timeout" "config-1")) _ H1).
    reflexivity.
  - unfold outcome.
    rewrite (proj1 (config_update sample_views "timeout" "config-9") H9).
    reflexivity.
Defined.

(** *** Tabs *)

Lemma cambiarTab_load (tabName : string) (q : page) :
  sent (exec (if String.eqb tabName "usuarios" then cargarUsuarios
              else if String.eqb tabName "logs" then ret tt
              else if String.eqb tabName "analiticas" then cargarAnaliticas
              else if String.eqb tabName "config" then cargarConfiguraciones
              else ret tt) q)
  = sent q ++ tab_requests tabName /\
  tabs (exec (if String.eqb tabName "usuarios" then cargarUsuarios
              else if String.eqb tabName "logs" then ret tt
              else if String.eqb tabName "analiticas" then cargarAnaliticas
              else if String.eqb tabName "config" then cargarConfiguraciones
              else ret tt) q) = tabs q /\
  tab_btns (exec (if String.eqb tabName "usuarios" then cargarUsuarios
                  else if String.eqb tabName "logs" then ret tt
                  else if String.eqb tabName "analiticas" then cargarAnaliticas
                  else if String.eqb tabName "config" then cargarConfiguraciones
                  else ret tt) q) = tab_btns q /\
  outcome (if String.eqb tabName "usuarios" then cargarUsuarios
           else if String.eqb tabName "logs" then ret tt
           else if String.eqb tabName "analiticas" then cargarAnaliticas
           else if String.eqb tabName "config" then cargarConfiguraciones
           else ret tt) q = Ok tt.
Proof.
  unfold tab_requests.
  destruct (String.eqb_spec tabName "usuarios") as [-> | _]; [repeat split |].
  destruct (String.eqb_spec tabName "logs") as [-> | _];
    [simpl; rewrite app_nil_r; repeat split |].
  destruct (String.eqb_spec tabName "analiticas") as [-> | _]; [repeat split |].
  destruct (String.eqb_spec tabName "config") as [-> | _]; [repeat split |].
  simpl. rewrite app_nil_r. repeat split.
Qed.

(** X26.  Switching to a tab whose pane exists leaves exactly that pane
    active and, of the tab buttons, exactly the clicked one, and asks the
    server for what the tab shows: the user list, the first analytics
    feed or the configuration, and nothing for the log tab or any other.
    Switching to a tab without a pane raises after every pane and button
    has been deactivated, and sends nothing. *)
Theorem tab_switch (p : page) (tabName : string) (target : nat) :
  let id := "tab-" +:+ tabName in
  let p' := exec (cambiarTab tabName target) p in
  (is_Some (tabs p !! id) ->
   outcome (cambiarTab tabName target) p = Ok tt /\
   (forall i, tabs p' !! i = Some true <-> i = id) /\
   (forall b, tab_btns p' !! b = Some true <->
              b = target /\ is_Some (tab_btns p !! target)) /\
   sent p' = sent p ++ tab_requests tabName) /\
  (tabs p !! id = None ->
   outcome (cambiarTab tabName target) p = Thrown TypeError /\
   (forall i, tabs p' !! i <> Some true) /\
   (forall b, tab_btns p' !! b <> Some true) /\
   sent p' = sent p).
Proof.
  intros id p'.
  assert (Hoff : forall (K : Type) `{Countable K} (m : gmap K bool) (i : K),
            ((fun _ => false) <$> m) !! i <> Some true).
  { intros K ? ? m i. rewrite lookup_fmap. destruct (m !! i); simpl; congruence. }
  assert (Hpane : ((fun _ => false) <$> tabs p) !! id
                  = (fun _ => false) <$> (tabs p !! id))
    by apply lookup_fmap.
  split.
  - intros [v Hv]. rewrite Hv in Hpane. simpl in Hpane.
    set (q := set_tab_btns
                (match ((fun _ => false) <$> tab_btns p) !! target with
                 | Some _ => <[target := true]> ((fun _ => false) <$> tab_btns p)
                 | None => (fun _ => false) <$> tab_btns p
                 end)
                (set_tabs (<[id := true]> ((fun _ => false) <$> tabs p)) p)).
    destruct (cambiarTab_load tabName q) as (Hsent & Htabs & Hbtns & Hout).
    assert (E : cambiarTab tabName target p
                = (if String.eqb tabName "usuarios" then cargarUsuarios
                   else if String.eqb tabName "logs" then ret tt
                   else if String.eqb tabName "analiticas" then cargarAnaliticas
                   else if String.eqb tabName "config" then cargarConfiguraciones
                   else ret tt) q).
    { unfold cambiarTab, bind, modify, gets. simpl. fold id. rewrite Hpane. simpl.
      subst q. unfold set_tab_btns, set_tabs. simpl.
      destruct (((fun _ => false) <$> tab_btns p) !! target); reflexivity. }
    subst p'. unfold outcome, exec in *. rewrite E.
    split; [exact Hout |]. rewrite Htabs, Hbtns, Hsent.
    split; [| split; [| reflexivity]].
    + intros i. subst q. simpl. split.
      * intros Hi. destruct (decide (id = i)) as [-> | Hne]; [reflexivity |].
        rewrite lookup_insert_ne in Hi by exact Hne. exfalso. eapply Hoff, Hi.
      * intros ->. apply lookup_insert_eq.
    + intros b. subst q. simpl.
      assert (Hb : ((fun _ => false) <$> tab_btns p) !! target
                   = (fun _ => false) <$> (tab_btns p !! target))
        by apply lookup_fmap.
      destruct (tab_btns p !! target) as [x |] eqn:Hx; rewrite Hb; simpl.
      * split.
        -- intros Hi. destruct (decide (target = b)) as [-> | Hne]; [eauto |].
           rewrite lookup_insert_ne in Hi by exact Hne. exfalso. eapply Hoff, Hi.
        -- intros [-> _]. apply lookup_insert_eq.
      * split.
        -- intros Hi. exfalso. eapply Hoff, Hi.
        -- intros [_ [y Hy]]. discriminate.
  - intros Hn. rewrite Hn in Hpane. simpl in Hpane.
    assert (E : cambiarTab tabName target p
                = (Thrown TypeError,
                   set_tab_btns ((fun _ => false) <$> tab_btns p)
                     (set_tabs ((fun _ => false) <$> tabs p) p))).
    { unfold cambiarTab, bind, modify, gets. simpl. fold id. rewrite Hpane.
      reflexivity. }
    subst p'. unfold outcome, exec. rewrite E. simpl.
    split; [reflexivity |]. split; [| split; [| reflexivity]].
    + intros i. apply Hoff.
    + intros b. apply Hoff.
Qed.

Lemma tab_switch_witness :
  is_Some (tabs sample_views !! "tab-config") /\
  tabs (exec (cambiarTab "config" 3) sample_views) !! "tab-usuarios" = Some false /\
  sent (exec (cambiarTab "logs" 1) sample_views) = [] /\
  sent (exec (cambiarTab "config" 3) sample_views) = [configuraciones_request] /\
  outcome (cambiarTab "ajustes" 3) sample_views = Thrown TypeError.
Proof.
  assert (Hc : is_Some (tabs sample_views !! "tab-config")) by (eexists; reflexivity).
  assert (Hl : is_Some (tabs sample_views !! "tab-logs")) by (eexists; reflexivity).
  assert (Ha : tabs sample_views !! "tab-ajustes" = None) by reflexivity.
  split; [exact Hc |]. split; [reflexivity |]. split; [| split].
  - destruct (proj1 (tab_switch sample_views "logs" 1) Hl) as (_ & _ & _ & H). exact H.
  - destruct (proj1 (tab_switch sample_views "config" 3) Hc) as (_ & _ & _ & H). exact H.
  - destruct (proj2 (tab_switch sample_views "ajustes" 3) Ha) as (H & _). exact H.
Defined.
End AdminViewsFacts.
